(** * OpenAI local proxy: translation pipeline of [proxy_server.py]

    A shallow embedding of the request/response translation and streaming
    relay of [src/openai-local-proxy/proxy_server.py], and the properties of
    it that the specification states.

    Conventions of the embedding.
    - A Python [str] is a [string]; the whitespace class of [str.strip] and
      [str.split] is the one Python uses on the ASCII range.
    - A value that travels through a JSON body is a [value]; a Python [dict]
      with [str] keys is an association list in insertion order.
    - An operation that can raise returns a [result], whose error carries
      the Python exception.
    - The module globals [config] and [http_client], and the library
      functions [json.loads] and [json.dumps], are variables of the section
      [Proxy]. *)

From Stdlib Require Import ZArith List String Ascii Bool Lia DecimalString.
Import ListNotations.

Local Set Warnings "-register-all".

Open Scope string_scope.
Open Scope Z_scope.

(** ** Python strings *)

Module PyStr.

(** The characters [str.isspace] accepts below code point 128. *)
Definition is_space (c : ascii) : bool :=
  let n := nat_of_ascii c in
  ((9 <=? n) && (n <=? 13) || (28 <=? n) && (n <=? 32))%nat.

Fixpoint lstrip (s : string) : string :=
  match s with
  | EmptyString => EmptyString
  | String c r => if is_space c then lstrip r else s
  end.

Fixpoint rstrip (s : string) : string :=
  match s with
  | EmptyString => EmptyString
  | String c r =>
      match rstrip r with
      | EmptyString => if is_space c then EmptyString else String c EmptyString
      | r' => String c r'
      end
  end.

(** [s.strip()] *)
Definition strip (s : string) : string := rstrip (lstrip s).

(** [s.startswith(p)] *)
Definition startswith (s p : string) : bool := String.prefix p s.

(** [s[n:]] *)
Fixpoint drop (n : nat) (s : string) : string :=
  match n, s with
  | O, _ => s
  | S n', String _ r => drop n' r
  | S _, EmptyString => EmptyString
  end.

Fixpoint split_from (word s : string) : list string :=
  match s with
  | EmptyString => if String.eqb word "" then [] else [word]
  | String c r =>
      if is_space c
      then (if String.eqb word "" then split_from "" r
            else word :: split_from "" r)
      else split_from (word ++ String c "") r
  end.

(** [s.split()]: the maximal runs of non-whitespace characters. *)
Definition split (s : string) : list string := split_from "" s.

(** [needle in s] for two strings. *)
Fixpoint contains (needle s : string) : bool :=
  String.prefix needle s ||
  match s with
  | EmptyString => false
  | String _ r => contains needle r
  end.

End PyStr.

(** ** Python values and exceptions *)

Inductive value : Type :=
| VNone
| VBool (b : bool)
| VInt (n : Z)
| VFloat (repr : string)
| VStr (s : string)
| VList (l : list value)
| VDict (d : list (string * value)).

(** A [dict] with [str] keys, in insertion order. *)
Definition dict : Type := list (string * value).

Inductive exn : Type :=
| HTTPException (status_code : Z) (detail : string)
| TimeoutException (msg : string)
| RequestError (msg : string)
| JSONDecodeError
| TypeError
| AttributeError
| KeyError (key : string)
| IndexError.

Inductive result (A : Type) : Type :=
| Ok (a : A)
| Raise (e : exn).
Arguments Ok {A} a.
Arguments Raise {A} e.

Definition bind {A B : Type} (m : result A) (k : A -> result B) : result B :=
  match m with
  | Ok a => k a
  | Raise e => Raise e
  end.

Notation "x <- m ;; k" := (bind m (fun x => k))
  (at level 61, m at next level, right associativity).

(** ** Dictionaries *)

Module Dict.
Section WithValue.
Context {V : Type}.

(** [d.get(k)] as an option. *)
Fixpoint lookup (k : string) (d : list (string * V)) : option V :=
  match d with
  | [] => None
  | (k', v) :: r => if String.eqb k k' then Some v else lookup k r
  end.

(** [k in d] *)
Definition mem (k : string) (d : list (string * V)) : bool :=
  match lookup k d with Some _ => true | None => false end.

(** [d[k] = v]: an existing key keeps its position, a new key goes last. *)
Fixpoint set (k : string) (v : V) (d : list (string * V)) : list (string * V) :=
  match d with
  | [] => [(k, v)]
  | (k', v') :: r =>
      if String.eqb k k' then (k', v) :: r else (k', v') :: set k v r
  end.

(** [d.get(k, default)] *)
Definition get (k : string) (default : V) (d : list (string * V)) : V :=
  match lookup k d with Some v => v | None => default end.

(** [d.pop(k, None)] *)
Fixpoint pop (k : string) (d : list (string * V)) : list (string * V) :=
  match d with
  | [] => []
  | (k', v) :: r => if String.eqb k k' then r else (k', v) :: pop k r
  end.

Definition keys (d : list (string * V)) : list string := map fst d.

End WithValue.
End Dict.

(** ** Operations of Python on JSON-shaped values *)

Module Py.

(** Lists and dicts are unhashable: using one as a dictionary key, also in
    [d.get(key)], raises [TypeError]. *)
Definition hashable (v : value) : bool :=
  match v with
  | VList _ | VDict _ => false
  | _ => true
  end.

Definition is_str (k : string) (v : value) : bool :=
  match v with
  | VStr s => String.eqb s k
  | _ => false
  end.

(** [k in v] for a string literal [k]. *)
Definition contains (k : string) (v : value) : result bool :=
  match v with
  | VDict d => Ok (Dict.mem k d)
  | VList l => Ok (existsb (is_str k) l)
  | VStr s => Ok (PyStr.contains k s)
  | _ => Raise TypeError
  end.

(** [v[k]] for a string literal [k]. *)
Definition getitem (v : value) (k : string) : result value :=
  match v with
  | VDict d =>
      match Dict.lookup k d with
      | Some x => Ok x
      | None => Raise (KeyError k)
      end
  | _ => Raise TypeError
  end.

(** [v[0]] *)
Definition getitem0 (v : value) : result value :=
  match v with
  | VList [] => Raise IndexError
  | VList (x :: _) => Ok x
  | VStr EmptyString => Raise IndexError
  | VStr (String c _) => Ok (VStr (String c ""))
  | VDict _ => Raise (KeyError "0")
  | _ => Raise TypeError
  end.

(** [v[k] = x] for a string literal [k]. *)
Definition setitem (v : value) (k : string) (x : value) : result value :=
  match v with
  | VDict d => Ok (VDict (Dict.set k x d))
  | _ => Raise TypeError
  end.

(** [len(v)] *)
Definition len (v : value) : result Z :=
  match v with
  | VDict d => Ok (Z.of_nat (List.length d))
  | VList l => Ok (Z.of_nat (List.length l))
  | VStr s => Ok (Z.of_nat (String.length s))
  | _ => Raise TypeError
  end.

(** [v.get(k, default)] *)
Definition get (v : value) (k : string) (default : value) : result value :=
  match v with
  | VDict d => Ok (Dict.get k default d)
  | _ => Raise AttributeError
  end.

(** [v.split()] *)
Definition split (v : value) : result (list string) :=
  match v with
  | VStr s => Ok (PyStr.split s)
  | _ => Raise AttributeError
  end.

(** Truth value of [v] in a condition. *)
Definition truthy (v : value) : bool :=
  match v with
  | VNone => false
  | VBool b => b
  | VInt n => negb (n =? 0)
  | VFloat r => negb (String.eqb r "0.0" || String.eqb r "-0.0")
  | VStr s => negb (String.eqb s "")
  | VList l => match l with [] => false | _ => true end
  | VDict d => match d with [] => false | _ => true end
  end.

End Py.

(** ** Configuration models *)

Record ServerConfig := {
  host : string;
  port : Z;
  workers : Z;
  log_level : string;
  cors_enabled : bool;
  cors_origins : list string
}.

Record BackendConfig := {
  name : string;
  url : string;
  enabled : bool;
  timeout : Z;
  max_retries : Z;
  retry_delay : Z
}.

Record AuthConfig := {
  auth_enabled : bool;
  valid_api_keys : list string
}.

Record LoggingConfig := {
  level : string;
  format : string;
  include_request_body : bool;
  include_response_body : bool
}.

(** [ProxyConfig] has exactly these six fields. *)
Record ProxyConfig := {
  server : ServerConfig;
  backends : list (string * BackendConfig);
  model_mapping : list (string * string);
  default_model : string;
  authentication : AuthConfig;
  logging : LoggingConfig
}.

(** [config.response]: the class [ProxyConfig] declares no field [response],
    and a pydantic model drops the keys of its input that it does not
    declare, so the attribute access raises [AttributeError] whatever the
    configuration file holds. *)
Definition config_response (c : ProxyConfig) : result dict :=
  Raise AttributeError.

(** A [dict] of the configuration is well formed when its keys are distinct. *)
Definition wf_mapping (m : list (string * string)) : Prop :=
  NoDup (Dict.keys m).

(** ** HTTP data *)

(** What the proxy hands to [http_client.get], [.post] or [.delete]. *)
Record outbound := {
  ob_method : string;
  ob_url : string;
  ob_json : option dict;
  ob_headers : list (string * string);
  ob_no_timeout : bool
}.

(** [httpx.Response]: [json()] is [json.loads] of [text], and
    [aiter_lines()] runs through [lines]. *)
Record Response := {
  status_code : Z;
  text : string;
  lines : list string
}.

(** The three ways an outbound call ends: a response of any status, an
    [httpx.TimeoutException], or another [httpx.RequestError] whose [str] is
    [msg]. *)
Inductive transport : Type :=
| Responded (r : Response)
| TimedOut (msg : string)
| Failed (msg : string).

(** A FastAPI [Request]: [await request.json()] is [json.loads] of the body. *)
Record Request := {
  body_text : string
}.

(** The [detail] of an error reply: a literal text, or [str(e)] of the
    exception the handler caught. *)
Inductive detail_text : Type :=
| Text (s : string)
| StrOf (e : exn).

(** The run of an async generator of strings: what it yielded, and the
    exception that ended it, if one did. *)
Definition generated : Type := (list string * option exn)%type.

(** What an endpoint hands to FastAPI: [JSONResponse(content)] and
    [StreamingResponse(events, media_type)], both with the default status
    200, or an [HTTPException] raised out of the handler. *)
Inductive http_reply : Type :=
| JSONResponse (content : dict)
| StreamingResponse (events : generated) (media_type : string)
| HTTPError (code : Z) (detail : detail_text).

Definition reply_status (r : http_reply) : Z :=
  match r with
  | JSONResponse _ => 200
  | StreamingResponse _ _ => 200
  | HTTPError code _ => code
  end.

(** ** Dict objects on the heap

    [transform_request_body] copies its argument and writes into the copy;
    the heap holds the dict objects so that the copy is a distinct object. *)

Module Heap.

Definition loc : Type := nat.
Definition heap : Type := list dict.

Definition valid (l : loc) (h : heap) : Prop := (l < List.length h)%nat.

Definition read (l : loc) (h : heap) : dict := nth l h [].

Fixpoint write (l : loc) (d : dict) (h : heap) : heap :=
  match l, h with
  | _, [] => []
  | O, _ :: r => d :: r
  | S l', x :: r => x :: write l' d r
  end.

(** [d.copy()]: a new object with the items of [l]. *)
Definition copy (l : loc) (h : heap) : loc * heap :=
  (List.length h, (h ++ [read l h])%list).

(** [d[k] = v] on the object at [l]. *)
Definition setitem (l : loc) (k : string) (v : value) (h : heap) : heap :=
  write l (Dict.set k v (read l h)) h.

End Heap.

Definition newline : string := String (ascii_of_nat 10) EmptyString.

(** ** The functions of [proxy_server.py] *)

Section Proxy.

Variable config : ProxyConfig.
Variable http_client : outbound -> transport.
(** [json.loads]; [None] stands for [json.JSONDecodeError]. *)
Variable json_loads : string -> option value.
Variable json_dumps : value -> string.

(** [{v: k for k, v in mapping.items()}] *)
Definition reverse_map (mapping : list (string * string)) : list (string * string) :=
  fold_left (fun acc kv => Dict.set (snd kv) (fst kv) acc) mapping [].

(** [mapping.get(model, model)] on a dict from [str] to [str]. *)
Definition mapping_get (mapping : list (string * string)) (model : value) : result value :=
  if Py.hashable model then
    match model with
    | VStr s =>
        match Dict.lookup s mapping with
        | Some v => Ok (VStr v)
        | None => Ok model
        end
    | _ => Ok model
    end
  else Raise TypeError.

Definition map_model_name (model : value) (reverse : bool) : result value :=
  if reverse then
    mapping_get (reverse_map (model_mapping config)) model
  else
    mapping_get (model_mapping config) model.

Definition validate_api_key (authorization : option string) : bool :=
  if negb (auth_enabled (authentication config)) then true
  else
    match authorization with
    | None => false
    | Some a =>
        if String.eqb a "" then false
        else if PyStr.startswith a "Bearer " then
          let token := PyStr.drop 7 a in
          existsb (String.eqb token) (valid_api_keys (authentication config))
        else false
    end.

(** The debug log of the transformed body is left out: it changes neither
    the heap nor the result. *)
Definition transform_request_body (body : Heap.loc) (h : Heap.heap)
  : result (Heap.loc * Heap.heap) :=
  let '(transformed, h) := Heap.copy body h in
  match Dict.lookup "model" (Heap.read transformed h) with
  | Some model =>
      mapped <- map_model_name model false ;;
      Ok (transformed, Heap.setitem transformed "model" mapped h)
  | None =>
      Ok (transformed,
          Heap.setitem transformed "model" (VStr (default_model config)) h)
  end.

(** [transform_request_body] on a body held by no one else. *)
Definition transform_request_dict (body : dict) : result dict :=
  r <- transform_request_body 0%nat [body] ;;
  Ok (Heap.read (fst r) (snd r)).

(** Lines 245 to 258: the estimate written to [usage]. *)
Definition backfill_usage (transformed : dict) : result dict :=
  match Dict.lookup "choices" transformed with
  | None => Ok transformed
  | Some choices =>
      n <- Py.len choices ;;
      if 0 <? n then
        first <- Py.getitem0 choices ;;
        has_message <- Py.contains "message" first ;;
        content <-
          (if has_message then
             message <- Py.getitem first "message" ;;
             Py.get message "content" (VStr "")
           else
             has_text <- Py.contains "text" first ;;
             if has_text then Py.getitem first "text" else Ok (VStr "")) ;;
        words <- Py.split content ;;
        let tokens := Z.of_nat (List.length words) in
        Ok (Dict.set "usage"
              (VDict [("prompt_tokens", VInt 0);
                      ("completion_tokens", VInt tokens);
                      ("total_tokens", VInt tokens)])
              transformed)
      else Ok transformed
  end.

(** Lines 231 to 241: model overwrite, [object] and [created] back-fill.
    [now] is [int(time.time())]. *)
Definition backfill_fields (now : Z) (body : dict) (original_model : value) : dict :=
  let transformed := body in
  let transformed :=
    if Dict.mem "model" transformed
    then Dict.set "model" original_model transformed
    else transformed in
  let transformed :=
    if negb (Dict.mem "object" transformed) && Dict.mem "choices" transformed
    then Dict.set "object" (VStr "chat.completion") transformed
    else transformed in
  if negb (Dict.mem "created" transformed)
  then Dict.set "created" (VInt now) transformed
  else transformed.

(** Line 244 onwards, given what [config.response] evaluates to. *)
Definition usage_step (response : result dict) (transformed : dict) : result dict :=
  section <- response ;;
  if Py.truthy (Dict.get "add_usage_stats" (VBool true) section)
     && negb (Dict.mem "usage" transformed)
  then backfill_usage transformed
  else Ok transformed.

(** [body.copy()] is the value [body] here: the function writes to the
    copy only, and no property below concerns the identity of the result. *)
Definition transform_response_body (now : Z) (body : dict) (original_model : value)
  : result dict :=
  usage_step (config_response config) (backfill_fields now body original_model).

(** [transform_response_body] on what [response.json()] returned. A list
    has [copy] and [in] but no assignment by key, so it raises [TypeError]
    at the first write, or [AttributeError] at [config.response] when no
    write is attempted; any other value has no [copy]. *)
Definition transform_response_value (now : Z) (body original_model : value)
  : result dict :=
  match body with
  | VDict d => transform_response_body now d original_model
  | VList l =>
      if existsb (Py.is_str "model") l then Raise TypeError
      else if negb (existsb (Py.is_str "object") l)
              && existsb (Py.is_str "choices") l then Raise TypeError
      else if negb (existsb (Py.is_str "created") l) then Raise TypeError
      else Raise AttributeError
  | _ => Raise AttributeError
  end.

(** One outbound call through [http_client], with the two [except] clauses
    of [forward_request]: the call made, and what the function then returns
    or raises. *)
Definition send (call : outbound) : list outbound * result Response :=
  ([call],
   match http_client call with
   | Responded r => Ok r
   | TimedOut _ => Raise (HTTPException 504 "Backend timeout")
   | Failed msg => Raise (HTTPException 502 ("Backend error: " ++ msg))
   end).

(** Returns the outbound calls made along with the result. *)
Definition forward_request (method path : string) (body : option dict)
    (headers : option (list (string * string))) (stream : bool)
  : list outbound * result Response :=
  match Dict.lookup "primary" (backends config) with
  | None => ([], Raise (KeyError "primary"))
  | Some primary =>
      let url := url primary ++ path in
      let forward_headers := match headers with Some hs => hs | None => [] end in
      let forward_headers := Dict.pop "authorization" forward_headers in
      let forward_headers := Dict.pop "Authorization" forward_headers in
      if String.eqb method "GET" then
        send {| ob_method := "GET"; ob_url := url; ob_json := None;
                ob_headers := forward_headers; ob_no_timeout := false |}
      else if String.eqb method "POST" then
        if stream then
          send {| ob_method := "POST"; ob_url := url; ob_json := body;
                  ob_headers := forward_headers; ob_no_timeout := true |}
        else
          send {| ob_method := "POST"; ob_url := url; ob_json := body;
                  ob_headers := forward_headers; ob_no_timeout := false |}
      else if String.eqb method "DELETE" then
        send {| ob_method := "DELETE"; ob_url := url; ob_json := None;
                ob_headers := forward_headers; ob_no_timeout := false |}
      else
        ([], Raise (HTTPException 405 ("Method " ++ method ++ " not supported")))
  end.

(** One turn of the loop of [stream_response]: what the line makes the
    generator yield, if anything, or the exception that leaves the loop. *)
Definition stream_line (line : string) (original_model : value)
  : result (option string) :=
  if String.eqb (PyStr.strip line) "" then Ok None
  else if PyStr.startswith line "data: " then
    let data := PyStr.drop 6 line in
    if String.eqb (PyStr.strip data) "[DONE]" then
      Ok (Some ("data: [DONE]" ++ newline ++ newline))
    else
      match json_loads data with
      | Some chunk =>
          has_model <- Py.contains "model" chunk ;;
          chunk <- (if has_model
                    then Py.setitem chunk "model" original_model
                    else Ok chunk) ;;
          Ok (Some ("data: " ++ json_dumps chunk ++ newline ++ newline))
      | None =>
          Ok (Some ("data: " ++ data ++ newline ++ newline))
      end
  else Ok None.

(** The generator run over the lines of the backend response. *)
Fixpoint stream_lines (ls : list string) (original_model : value) : generated :=
  match ls with
  | [] => ([], None)
  | line :: rest =>
      match stream_line line original_model with
      | Raise e => ([], Some e)
      | Ok None => stream_lines rest original_model
      | Ok (Some event) =>
          let '(events, ended) := stream_lines rest original_model in
          (event :: events, ended)
      end
  end.

Definition stream_response (response : Response) (original_model : value) : generated :=
  stream_lines (lines response) original_model.

(** [response.json()] *)
Definition response_json (response : Response) : result value :=
  match json_loads (text response) with
  | Some v => Ok v
  | None => Raise JSONDecodeError
  end.

(** [await request.json()] *)
Definition request_json (request : Request) : result value :=
  match json_loads (body_text request) with
  | Some v => Ok v
  | None => Raise JSONDecodeError
  end.

(** [authorization or ""] *)
Definition or_empty (authorization : option string) : string :=
  match authorization with
  | Some a => a
  | None => ""
  end.

(** The [try] block that [chat_completions] and [completions] share but for
    the path and the default of [original_model]. [now] is the clock read
    by [transform_response_body]. *)
Definition completion_try (now : Z) (path fallback_model : string)
    (request : Request) (authorization : option string)
  : list outbound * result http_reply :=
  match request_json request with
  | Raise e => ([], Raise e)
  | Ok body =>
      match Py.get body "model" (VStr fallback_model),
            Py.get body "stream" (VBool false) with
      | Ok original_model, Ok stream =>
          match body with
          | VDict fields =>
              match transform_request_dict fields with
              | Raise e => ([], Raise e)
              | Ok transformed_body =>
                  let '(calls, forwarded) :=
                    forward_request "POST" path (Some transformed_body)
                      (Some [("authorization", or_empty authorization)])
                      (Py.truthy stream) in
                  (calls,
                   response <- forwarded ;;
                   if Py.truthy stream then
                     Ok (StreamingResponse
                           (stream_response response original_model)
                           "text/event-stream")
                   else if status_code response =? 200 then
                     response_data <- response_json response ;;
                     transformed_response <-
                       transform_response_value now response_data original_model ;;
                     Ok (JSONResponse transformed_response)
                   else
                     Raise (HTTPException (status_code response) (text response)))
              end
          | _ => ([], Raise AttributeError)
          end
      | Raise e, _ => ([], Raise e)
      | _, Raise e => ([], Raise e)
      end
  end.

Definition chat_completions (now : Z) (request : Request)
    (authorization : option string) : list outbound * http_reply :=
  if negb (validate_api_key authorization) then
    ([], HTTPError 401 (Text "Invalid API key"))
  else
    let '(calls, outcome) :=
      completion_try now "/v1/chat/completions" "gpt-3.5-turbo"
        request authorization in
    (calls,
     match outcome with
     | Ok reply => reply
     | Raise JSONDecodeError => HTTPError 400 (Text "Invalid JSON in request body")
     | Raise e => HTTPError 500 (StrOf e)
     end).

Definition completions (now : Z) (request : Request)
    (authorization : option string) : list outbound * http_reply :=
  if negb (validate_api_key authorization) then
    ([], HTTPError 401 (Text "Invalid API key"))
  else
    let '(calls, outcome) :=
      completion_try now "/v1/completions" "text-davinci-003"
        request authorization in
    (calls,
     match outcome with
     | Ok reply => reply
     | Raise e => HTTPError 500 (StrOf e)
     end).

(** The [try] block of [embeddings]: as [completion_try], without a
    [stream] flag. *)
Definition embeddings_try (now : Z) (request : Request)
    (authorization : option string) : list outbound * result http_reply :=
  match request_json request with
  | Raise e => ([], Raise e)
  | Ok body =>
      match Py.get body "model" (VStr "text-embedding-ada-002") with
      | Raise e => ([], Raise e)
      | Ok original_model =>
          match body with
          | VDict fields =>
              match transform_request_dict fields with
              | Raise e => ([], Raise e)
              | Ok transformed_body =>
                  let '(calls, forwarded) :=
                    forward_request "POST" "/v1/embeddings"
                      (Some transformed_body)
                      (Some [("authorization", or_empty authorization)])
                      false in
                  (calls,
                   response <- forwarded ;;
                   if status_code response =? 200 then
                     response_data <- response_json response ;;
                     transformed_response <-
                       transform_response_value now response_data original_model ;;
                     Ok (JSONResponse transformed_response)
                   else
                     Raise (HTTPException (status_code response) (text response)))
              end
          | _ => ([], Raise AttributeError)
          end
      end
  end.

Definition embeddings (now : Z) (request : Request)
    (authorization : option string) : list outbound * http_reply :=
  if negb (validate_api_key authorization) then
    ([], HTTPError 401 (Text "Invalid API key"))
  else
    let '(calls, outcome) := embeddings_try now request authorization in
    (calls,
     match outcome with
     | Ok reply => reply
     | Raise e => HTTPError 500 (StrOf e)
     end).

(** The body of the loop of [list_models]: one element of [data["data"]]
    with its [id], when it has one, mapped back to the external name. *)
Definition rename_model (model : value) : result value :=
  has_id <- Py.contains "id" model ;;
  if has_id then
    id <- Py.getitem model "id" ;;
    external <- map_model_name id true ;;
    Py.setitem model "id" external
  else Ok model.

Fixpoint rename_models (models : list value) : result (list value) :=
  match models with
  | [] => Ok []
  | model :: rest =>
      model' <- rename_model model ;;
      rest' <- rename_models rest ;;
      Ok (model' :: rest')
  end.

(** Lines 380 to 384, on what [response.json()] returned. The loop writes
    into the elements of a list; iterating a dict gives its keys and
    iterating a string its characters, which the loop can only read. *)
Definition rename_listing (data : value) : result value :=
  has_data <- Py.contains "data" data ;;
  if has_data then
    listing <- Py.getitem data "data" ;;
    match listing with
    | VList models =>
        models' <- rename_models models ;;
        Py.setitem data "data" (VList models')
    | VDict d =>
        _ <- rename_models (map VStr (Dict.keys d)) ;;
        Ok data
    | VStr s =>
        _ <- rename_models
               (map (fun c => VStr (String c EmptyString)) (list_ascii_of_string s)) ;;
        Ok data
    | _ => Raise TypeError
    end
  else Ok data.

(** The model list [list_models] falls back to; [now] is
    [int(time.time())]. *)
Definition fallback_models (now : Z) : value :=
  VDict [("object", VStr "list");
         ("data",
          VList [VDict [("id", VStr "gpt-3.5-turbo");
                        ("object", VStr "model");
                        ("created", VInt now);
                        ("owned_by", VStr "local")]])].

(** [list_models] returns a Python object, which FastAPI serialises with
    status 200, or raises the 401. *)
Definition list_models (now : Z) (authorization : option string)
  : list outbound * result value :=
  if negb (validate_api_key authorization) then
    ([], Raise (HTTPException 401 "Invalid API key"))
  else
    let '(calls, forwarded) :=
      forward_request "GET" "/v1/models" None
        (Some [("authorization", or_empty authorization)]) false in
    (calls,
     match (response <- forwarded ;;
            if status_code response =? 200 then
              data <- response_json response ;;
              rename_listing data
            else
              Raise (HTTPException (status_code response) (text response)))
     with
     | Ok data => Ok data
     | Raise _ => Ok (fallback_models now)
     end).

(** [health_check]: no authentication, no outbound call. *)
Definition health_check : result value :=
  match Dict.lookup "primary" (backends config) with
  | Some primary =>
      Ok (VDict [("status", VStr "healthy"); ("backend", VStr (url primary))])
  | None => Raise (KeyError "primary")
  end.

End Proxy.

(** ** A JSON codec

    [json.loads] and [json.dumps] on the fragment of JSON without fractional
    or exponent numbers and without [\u] escapes, on ASCII text. It serves
    to run the functions above on concrete lines and bodies; the properties
    of [stream_response] and of the endpoints are proved for any codec. *)

Module JsonText.

Definition quote : string := String (ascii_of_nat 34) EmptyString.
Definition backslash : string := String (ascii_of_nat 92) EmptyString.

Definition is_ws (c : ascii) : bool :=
  let n := nat_of_ascii c in
  ((n =? 32) || (n =? 9) || (n =? 10) || (n =? 13))%nat.

Fixpoint skip_ws (s : string) : string :=
  match s with
  | String c r => if is_ws c then skip_ws r else s
  | EmptyString => s
  end.

Definition digit_of (c : ascii) : option Z :=
  let n := nat_of_ascii c in
  if ((48 <=? n) && (n <=? 57))%nat then Some (Z.of_nat n - 48) else None.

Fixpoint digits (acc : Z) (s : string) : Z * string :=
  match s with
  | String c r =>
      match digit_of c with
      | Some d => digits (10 * acc + d) r
      | None => (acc, s)
      end
  | EmptyString => (acc, s)
  end.

(** After the digits of an integer no fraction or exponent may follow. *)
Definition ends_number (s : string) : bool :=
  match s with
  | String c _ =>
      let n := nat_of_ascii c in
      negb ((n =? 46) || (n =? 101) || (n =? 69))%nat
  | EmptyString => true
  end.

Definition natural (s : string) : option (Z * string) :=
  match s with
  | String c r =>
      match digit_of c with
      | Some 0 => if ends_number r
                  then match r with
                       | String c' _ =>
                           match digit_of c' with
                           | Some _ => None
                           | None => Some (0, r)
                           end
                       | EmptyString => Some (0, r)
                       end
                  else None
      | Some d => let '(n, rest) := digits d r in
                  if ends_number rest then Some (n, rest) else None
      | None => None
      end
  | EmptyString => None
  end.

Definition unescape (c : ascii) : option ascii :=
  let n := nat_of_ascii c in
  if (n =? 34)%nat then Some c
  else if (n =? 92)%nat then Some c
  else if (n =? 47)%nat then Some c
  else if (n =? 98)%nat then Some (ascii_of_nat 8)
  else if (n =? 102)%nat then Some (ascii_of_nat 12)
  else if (n =? 110)%nat then Some (ascii_of_nat 10)
  else if (n =? 114)%nat then Some (ascii_of_nat 13)
  else if (n =? 116)%nat then Some (ascii_of_nat 9)
  else None.

(** The characters of a string literal after its opening quote. *)
Fixpoint chars (s : string) : option (string * string) :=
  match s with
  | EmptyString => None
  | String c r =>
      let n := nat_of_ascii c in
      if (n =? 34)%nat then Some (EmptyString, r)
      else if (n =? 92)%nat then
        match r with
        | String e r' =>
            match unescape e, chars r' with
            | Some c', Some (body, rest) => Some (String c' body, rest)
            | _, _ => None
            end
        | EmptyString => None
        end
      else if (n <? 32)%nat then None
      else
        match chars r with
        | Some (body, rest) => Some (String c body, rest)
        | None => None
        end
  end.

Definition literal (word : string) (v : value) (s : string) : option (value * string) :=
  if String.prefix word s
  then Some (v, PyStr.drop (String.length word) s)
  else None.

Fixpoint parse_value (fuel : nat) (s : string) {struct fuel} : option (value * string) :=
  match fuel with
  | O => None
  | S fuel' =>
      match skip_ws s with
      | EmptyString => None
      | String c r as s' =>
          let n := nat_of_ascii c in
          if (n =? 123)%nat then
            match skip_ws r with
            | String c' r' =>
                if (nat_of_ascii c' =? 125)%nat then Some (VDict [], r')
                else match parse_members fuel' r [] with
                     | Some (d, rest) => Some (VDict d, rest)
                     | None => None
                     end
            | EmptyString => None
            end
          else if (n =? 91)%nat then
            match skip_ws r with
            | String c' r' =>
                if (nat_of_ascii c' =? 93)%nat then Some (VList [], r')
                else match parse_elements fuel' r [] with
                     | Some (l, rest) => Some (VList l, rest)
                     | None => None
                     end
            | EmptyString => None
            end
          else if (n =? 34)%nat then
            match chars r with
            | Some (body, rest) => Some (VStr body, rest)
            | None => None
            end
          else if (n =? 45)%nat then
            match natural r with
            | Some (k, rest) => Some (VInt (- k), rest)
            | None => None
            end
          else if (n =? 116)%nat then literal "true" (VBool true) s'
          else if (n =? 102)%nat then literal "false" (VBool false) s'
          else if (n =? 110)%nat then literal "null" VNone s'
          else
            match natural s' with
            | Some (k, rest) => Some (VInt k, rest)
            | None => None
            end
      end
  end
with parse_elements (fuel : nat) (s : string) (acc : list value) {struct fuel}
  : option (list value * string) :=
  match fuel with
  | O => None
  | S fuel' =>
      match parse_value fuel' s with
      | Some (v, rest) =>
          match skip_ws rest with
          | String c r =>
              if (nat_of_ascii c =? 44)%nat
              then parse_elements fuel' r (acc ++ [v])%list
              else if (nat_of_ascii c =? 93)%nat
              then Some ((acc ++ [v])%list, r)
              else None
          | EmptyString => None
          end
      | None => None
      end
  end
with parse_members (fuel : nat) (s : string) (acc : dict) {struct fuel}
  : option (dict * string) :=
  match fuel with
  | O => None
  | S fuel' =>
      match skip_ws s with
      | String q r =>
          if (nat_of_ascii q =? 34)%nat then
            match chars r with
            | Some (key, rest) =>
                match skip_ws rest with
                | String c rest' =>
                    if (nat_of_ascii c =? 58)%nat then
                      match parse_value fuel' rest' with
                      | Some (v, rest'') =>
                          match skip_ws rest'' with
                          | String c' r' =>
                              if (nat_of_ascii c' =? 44)%nat
                              then parse_members fuel' r' (Dict.set key v acc)
                              else if (nat_of_ascii c' =? 125)%nat
                              then Some (Dict.set key v acc, r')
                              else None
                          | EmptyString => None
                          end
                      | None => None
                      end
                    else None
                | EmptyString => None
                end
            | None => None
            end
          else None
      | EmptyString => None
      end
  end.

(** [json.loads]; each nested call of the parser follows the reading of a
    character, so twice the length of the text is fuel enough. *)
Definition loads (s : string) : option value :=
  match parse_value (2 * String.length s + 2) s with
  | Some (v, rest) =>
      match skip_ws rest with
      | EmptyString => Some v
      | _ => None
      end
  | None => None
  end.

Definition hex_digit (n : nat) : ascii :=
  if (n <? 10)%nat then ascii_of_nat (48 + n) else ascii_of_nat (87 + n).

Definition escape_char (c : ascii) : string :=
  let n := nat_of_ascii c in
  if (n =? 34)%nat then backslash ++ quote
  else if (n =? 92)%nat then backslash ++ backslash
  else if (n =? 10)%nat then backslash ++ "n"
  else if (n =? 13)%nat then backslash ++ "r"
  else if (n =? 9)%nat then backslash ++ "t"
  else if (n =? 8)%nat then backslash ++ "b"
  else if (n =? 12)%nat then backslash ++ "f"
  else if ((32 <=? n) && (n <=? 126))%nat then String c EmptyString
  else backslash ++ "u00"
       ++ String (hex_digit (n / 16)) (String (hex_digit (n mod 16)) EmptyString).

Fixpoint escape (s : string) : string :=
  match s with
  | EmptyString => EmptyString
  | String c r => escape_char c ++ escape r
  end.

Definition dumps_str (s : string) : string := quote ++ escape s ++ quote.

Definition dumps_int (n : Z) : string :=
  DecimalString.NilZero.string_of_int (Z.to_int n).

(** [json.dumps] with its default separators. *)
Fixpoint dumps (v : value) : string :=
  match v with
  | VNone => "null"
  | VBool true => "true"
  | VBool false => "false"
  | VInt n => dumps_int n
  | VFloat r => r
  | VStr s => dumps_str s
  | VList l => "[" ++ String.concat ", " (map dumps l) ++ "]"
  | VDict d =>
      "{" ++ String.concat ", "
               (map (fun kv => dumps_str (fst kv) ++ ": " ++ dumps (snd kv)) d)
          ++ "}"
  end.

End JsonText.

(** ** Sample data *)

Definition sample_server : ServerConfig :=
  {| host := "0.0.0.0"; port := 8080; workers := 1; log_level := "info";
     cors_enabled := true; cors_origins := ["*"] |}.

Definition sample_backend : BackendConfig :=
  {| name := "LM Studio"; url := "http://10.50.10.14:1234"; enabled := true;
     timeout := 300; max_retries := 3; retry_delay := 1 |}.

Definition sample_logging : LoggingConfig :=
  {| level := "INFO"; format := "text";
     include_request_body := false; include_response_body := false |}.

(** The mapping the tests of the repository run against: several external
    names share one internal name. *)
Definition sample_mapping : list (string * string) :=
  [("gpt-3.5-turbo", "llama-3.1-instruct-13b");
   ("gpt-4", "llama-3.1-instruct-13b");
   ("gpt-4-turbo", "llama-3.1-instruct-13b");
   ("text-embedding-ada-002", "nomic-embed-text")].

Definition sample_config (auth : bool) : ProxyConfig :=
  {| server := sample_server;
     backends := [("primary", sample_backend)];
     model_mapping := sample_mapping;
     default_model := "llama-3.1-instruct-13b";
     authentication := {| auth_enabled := auth; valid_api_keys := ["abc"] |};
     logging := sample_logging |}.

(** The body [{"model": "gpt-3.5-turbo", "messages": []}], with the
    [stream] flag set when [stream] is given. *)
Definition sample_body_text (stream : bool) : string :=
  let q := JsonText.quote in
  "{" ++ q ++ "model" ++ q ++ ": " ++ q ++ "gpt-3.5-turbo" ++ q
      ++ ", " ++ q ++ "messages" ++ q ++ ": []"
      ++ (if stream then ", " ++ q ++ "stream" ++ q ++ ": true" else "")
      ++ "}".

Definition sample_request (stream : bool) : Request :=
  {| body_text := sample_body_text stream |}.

(** A backend that answers every call with [response]. *)
Definition answering (response : Response) : outbound -> transport :=
  fun _ => Responded response.

(** A backend on which every call times out. *)
Definition timing_out : outbound -> transport :=
  fun _ => TimedOut "timed out".

(** A backend that refuses every connection. *)
Definition refusing : outbound -> transport :=
  fun _ => Failed "All connection attempts failed".

(** A backend failure: status 500 and a body that is no event stream. *)
Definition sample_error_response : Response :=
  {| status_code := 500; text := "Internal Server Error";
     lines := ["Internal Server Error"] |}.

(** The response body [{"choices": [{"message": {"content": "one two
    three"}}]}], which has no [usage] field. *)
Definition usage_example_body : dict :=
  [("choices",
    VList [VDict [("message", VDict [("content", VStr "one two three")])]])].

(** The backend response of [test_chat_completion_basic]. *)
Definition basic_test_body : dict :=
  [("id", VStr "chatcmpl-123");
   ("object", VStr "chat.completion");
   ("created", VInt 1677652288);
   ("model", VStr "llama-3.1-instruct-13b");
   ("choices",
    VList [VDict [("index", VInt 0);
                  ("message",
                   VDict [("role", VStr "assistant");
                          ("content", VStr "Hello! How can I help you?")]);
                  ("finish_reason", VStr "stop")]]);
   ("usage",
    VDict [("prompt_tokens", VInt 10);
           ("completion_tokens", VInt 9);
           ("total_tokens", VInt 19)])].

Definition basic_test_response : Response :=
  {| status_code := 200;
     text := JsonText.dumps (VDict basic_test_body);
     lines := [] |}.

(** The [usage] object of the estimate for [tokens] words. *)
Definition usage_estimate (tokens : Z) : value :=
  VDict [("prompt_tokens", VInt 0);
         ("completion_tokens", VInt tokens);
         ("total_tokens", VInt tokens)].

(** A body on which the first three steps of [transform_response_body]
    change nothing when the original model is [original_model]. *)
Definition fields_settled (original_model : value) (d : dict) : Prop :=
  (forall v, Dict.lookup "model" d = Some v -> v = original_model) /\
  (Dict.mem "object" d = false -> Dict.mem "choices" d = false) /\
  Dict.mem "created" d = true.

(** The line [data: {"id": "c1", "model": "internal-x"}]. *)
Definition sample_chunk_line : string :=
  let q := JsonText.quote in
  "data: {" ++ q ++ "id" ++ q ++ ": " ++ q ++ "c1" ++ q ++ ", "
            ++ q ++ "model" ++ q ++ ": " ++ q ++ "internal-x" ++ q ++ "}".

(** The event [data: {"id": "c1", "model": "gpt-3.5-turbo"}] with its
    separator. *)
Definition sample_chunk_event : string :=
  let q := JsonText.quote in
  "data: {" ++ q ++ "id" ++ q ++ ": " ++ q ++ "c1" ++ q ++ ", "
            ++ q ++ "model" ++ q ++ ": " ++ q ++ "gpt-3.5-turbo" ++ q ++ "}"
            ++ newline ++ newline.

(** A request body whose [model] is a list: [{"model": []}]. *)
Definition list_model_body : dict := [("model", VList [])].

(** A line that [stream_response] turns into an event, when it does not
    raise on it: not blank, and with the data marker. *)
Definition is_data_line (line : string) : bool :=
  negb (String.eqb (PyStr.strip line) "") && PyStr.startswith line "data: ".

(** An event in the framing of the stream: the data marker, a payload and
    the blank-line separator. *)
Definition framed (event : string) : Prop :=
  exists payload, event = "data: " ++ payload ++ newline ++ newline.

(** The header dict [{"authorization": "Bearer abc", "x-trace": "1"}]. *)
Definition sample_headers : list (string * string) :=
  [("authorization", "Bearer abc"); ("x-trace", "1")].

(** The listing [{"object": "list", "data": [{"id":
    "llama-3.1-instruct-13b", "object": "model"}, {"id": "mistral-7b"}]}]. *)
Definition sample_listing : value :=
  VDict [("object", VStr "list");
         ("data",
          VList [VDict [("id", VStr "llama-3.1-instruct-13b");
                        ("object", VStr "model")];
                 VDict [("id", VStr "mistral-7b")]])].

Definition sample_listing_response : Response :=
  {| status_code := 200; text := JsonText.dumps sample_listing; lines := [] |}.

(** A model of a listing with its [id], when it is a string, replaced by
    the external name the reverse map gives for it. *)
Definition with_external_id (config : ProxyConfig) (model : value) : value :=
  match model with
  | VDict fields =>
      match Dict.lookup "id" fields with
      | Some (VStr internal) =>
          VDict (Dict.set "id"
                   (VStr (Dict.get internal internal
                            (reverse_map (model_mapping config))))
                   fields)
      | _ => model
      end
  | _ => model
  end.

(** An element of a listing as backends send it: an object whose [id],
    when it has one, is a string. *)
Definition named_model (model : value) : Prop :=
  exists fields,
    model = VDict fields /\
    forall v, Dict.lookup "id" fields = Some v -> exists internal, v = VStr internal.

(** The call that a POST of no body to [/v1/chat/completions] with
    [sample_headers] makes under [sample_config]. *)
Definition sample_post_call (stream : bool) : outbound :=
  {| ob_method := "POST";
     ob_url := "http://10.50.10.14:1234/v1/chat/completions";
     ob_json := None;
     ob_headers := [("x-trace", "1")];
     ob_no_timeout := stream |}.

Lemma sample_headers_distinct : NoDup (Dict.keys sample_headers).
Proof.
  repeat (constructor;
          [intros H; repeat (destruct H as [H | H]; [discriminate H |]);
           exact H |]).
  constructor.
Qed.

Lemma sample_post_call_made stream :
  In (sample_post_call stream)
     (fst (forward_request (sample_config false)
             (answering sample_error_response)
             "POST" "/v1/chat/completions" None (Some sample_headers) stream)).
Proof. destruct stream; simpl; now left. Qed.

(** * Properties *)

(** ** Dictionaries *)

Section DictFacts.
Context {V : Type}.
Implicit Types (d : list (string * V)) (k : string) (v : V).

Lemma lookup_set_same k v d : Dict.lookup k (Dict.set k v d) = Some v.
Proof.
  induction d as [|[k' v'] d IH]; simpl.
  - now rewrite String.eqb_refl.
  - destruct (String.eqb k k') eqn:E; simpl; rewrite E; auto.
Qed.

Lemma lookup_set_other k k' v d :
  k <> k' -> Dict.lookup k (Dict.set k' v d) = Dict.lookup k d.
Proof.
  intros Hne. induction d as [|[k0 v0] d IH]; simpl.
  - apply String.eqb_neq in Hne. now rewrite Hne.
  - destruct (String.eqb k' k0) eqn:E; simpl.
    + apply String.eqb_eq in E. subst k0.
      apply String.eqb_neq in Hne. now rewrite Hne.
    + now rewrite IH.
Qed.

Lemma lookup_none_keys k d :
  Dict.lookup k d = None <-> ~ In k (Dict.keys d).
Proof.
  induction d as [|[k' v'] d IH]; simpl.
  - tauto.
  - destruct (String.eqb k k') eqn:E.
    + apply String.eqb_eq in E. subst. split; [discriminate | tauto].
    + apply String.eqb_neq in E. rewrite IH. split.
      * intros H [H1 | H1]; [congruence | tauto].
      * tauto.
Qed.

Lemma lookup_in k v d : Dict.lookup k d = Some v -> In (k, v) d.
Proof.
  induction d as [|[k' v'] d IH]; simpl; [discriminate |].
  destruct (String.eqb k k') eqn:E.
  - apply String.eqb_eq in E. intros [= ->]. subst. now left.
  - auto.
Qed.

Lemma in_lookup k v d :
  NoDup (Dict.keys d) -> In (k, v) d -> Dict.lookup k d = Some v.
Proof.
  induction d as [|[k' v'] d IH]; simpl; [tauto |].
  intros Hnd [H | H].
  - injection H as -> ->. now rewrite String.eqb_refl.
  - inversion Hnd as [|? ? Hnotin Hnd']; subst.
    destruct (String.eqb k k') eqn:E.
    + apply String.eqb_eq in E. subst k'. exfalso. apply Hnotin.
      change (In (fst (k, v)) (map fst d)). now apply in_map.
    + auto.
Qed.

Lemma mem_set_same k v d : Dict.mem k (Dict.set k v d) = true.
Proof. unfold Dict.mem. now rewrite lookup_set_same. Qed.

Lemma mem_set_other k k' v d :
  k <> k' -> Dict.mem k (Dict.set k' v d) = Dict.mem k d.
Proof. intros H. unfold Dict.mem. now rewrite lookup_set_other. Qed.

(** Writing twice to one key is writing the last value once. *)
Lemma set_set k v v' d : Dict.set k v' (Dict.set k v d) = Dict.set k v' d.
Proof.
  induction d as [|[k0 v0] d IH]; simpl.
  - now rewrite String.eqb_refl.
  - destruct (String.eqb k k0) eqn:E; simpl; rewrite E; [reflexivity |].
    now rewrite IH.
Qed.

(** A write to an absent key adds the item at the end. *)
Lemma set_absent k v d :
  Dict.lookup k d = None -> Dict.set k v d = (d ++ [(k, v)])%list.
Proof.
  induction d as [|[k0 v0] d IH]; simpl; [reflexivity |].
  destruct (String.eqb k k0); [discriminate |].
  intros H. now rewrite IH.
Qed.

(** A write leaves every other key of the dict as it was. *)
Lemma get_set_other k k' v default d :
  k <> k' -> Dict.get k default (Dict.set k' v d) = Dict.get k default d.
Proof. intros H. unfold Dict.get. now rewrite lookup_set_other. Qed.

End DictFacts.

(** ** Model name mapper *)

Section MapperFacts.
Implicit Types (m acc : list (string * string)) (x k i : string).

Lemma reverse_fold_miss m acc x :
  ~ In x (map snd m) ->
  Dict.lookup x (fold_left (fun a kv => Dict.set (snd kv) (fst kv) a) m acc)
  = Dict.lookup x acc.
Proof.
  revert acc. induction m as [|[k i] m IH]; simpl; intros acc Hx; [reflexivity |].
  rewrite IH by tauto.
  apply lookup_set_other. intros ->. tauto.
Qed.

(** The reverse map sends an internal name to the last external name, in
    the order of the mapping, that maps to it. *)
Lemma reverse_map_last m1 m2 k i :
  ~ In i (map snd m2) ->
  Dict.lookup i (reverse_map (m1 ++ (k, i) :: m2)) = Some k.
Proof.
  intros Hlast. unfold reverse_map.
  rewrite fold_left_app. simpl.
  rewrite reverse_fold_miss by assumption.
  apply lookup_set_same.
Qed.

Lemma reverse_map_miss m x :
  ~ In x (map snd m) -> Dict.lookup x (reverse_map m) = None.
Proof. intros H. unfold reverse_map. now rewrite reverse_fold_miss. Qed.

(** In a well-formed mapping an entry whose internal name has no other
    preimage is the last entry for that internal name. *)
Lemma unique_preimage_split m e i :
  wf_mapping m ->
  Dict.lookup e m = Some i ->
  (forall e', Dict.lookup e' m = Some i -> e' = e) ->
  exists m1 m2, m = (m1 ++ (e, i) :: m2)%list /\ ~ In i (map snd m2).
Proof.
  intros Hwf He Huniq.
  destruct (in_split _ _ (lookup_in _ _ _ He)) as (m1 & m2 & ->).
  exists m1, m2. split; [reflexivity |].
  intros Hin. apply in_map_iff in Hin. destruct Hin as ([e' i'] & Hi & Hin).
  simpl in Hi. subst i'.
  assert (Hin' : In (e', i) (m1 ++ (e, i) :: m2)).
  { apply in_or_app. right. now right. }
  pose proof (Huniq e' (in_lookup _ _ _ Hwf Hin')) as ->.
  unfold wf_mapping, Dict.keys in Hwf. rewrite map_app in Hwf. simpl in Hwf.
  apply NoDup_remove_2 in Hwf. apply Hwf.
  apply in_or_app. right.
  change (In (fst (e, i)) (map fst m2)). now apply in_map.
Qed.

End MapperFacts.

Section MapperClaims.
Variable config : ProxyConfig.

(** C5. A name that is no key of the model mapping is returned unchanged,
    without an error, by the forward lookup, and a name that is no value of
    the mapping is returned unchanged by the reverse lookup. *)
Theorem map_model_name_unmapped (x : string) :
  (~ In x (Dict.keys (model_mapping config)) ->
   map_model_name config (VStr x) false = Ok (VStr x)) /\
  (~ In x (map snd (model_mapping config)) ->
   map_model_name config (VStr x) true = Ok (VStr x)).
Proof.
  unfold map_model_name, mapping_get. simpl. split; intros H.
  - apply lookup_none_keys in H. now rewrite H.
  - now rewrite reverse_map_miss.
Qed.

(** C6. An external name whose internal name has no other preimage comes
    back from the forward lookup followed by the reverse lookup; and when
    several external names share an internal name, the reverse lookup
    returns the one that comes last in the mapping. *)
Theorem map_model_name_round_trip :
  (forall e i,
      wf_mapping (model_mapping config) ->
      Dict.lookup e (model_mapping config) = Some i ->
      (forall e', Dict.lookup e' (model_mapping config) = Some i -> e' = e) ->
      (internal <- map_model_name config (VStr e) false ;;
       map_model_name config internal true) = Ok (VStr e)) /\
  (forall m1 m2 k i,
      model_mapping config = (m1 ++ (k, i) :: m2)%list ->
      ~ In i (map snd m2) ->
      map_model_name config (VStr i) true = Ok (VStr k)).
Proof.
  assert (Hlast : forall m1 m2 k i,
             model_mapping config = (m1 ++ (k, i) :: m2)%list ->
             ~ In i (map snd m2) ->
             map_model_name config (VStr i) true = Ok (VStr k)).
  { intros m1 m2 k i Hm Hlast. unfold map_model_name, mapping_get. simpl.
    rewrite Hm. now rewrite reverse_map_last. }
  split; [| exact Hlast].
  intros e i Hwf He Huniq.
  destruct (unique_preimage_split _ _ _ Hwf He Huniq) as (m1 & m2 & Hm & Hnot).
  unfold map_model_name at 1. unfold mapping_get. simpl. rewrite He. simpl.
  now apply (Hlast m1 m2).
Qed.

End MapperClaims.

Lemma map_model_name_unmapped_witness :
  map_model_name (sample_config false) (VStr "some-random-model") false
  = Ok (VStr "some-random-model") /\
  map_model_name (sample_config false) (VStr "some-random-model") true
  = Ok (VStr "some-random-model").
Proof.
  destruct (map_model_name_unmapped (sample_config false) "some-random-model")
    as [Hforward Hreverse].
  split; [apply Hforward | apply Hreverse]; vm_compute;
    intros H; repeat (destruct H as [H | H]; [discriminate H |]); exact H.
Defined.

Lemma map_model_name_round_trip_witness :
  (internal <- map_model_name (sample_config false)
                 (VStr "text-embedding-ada-002") false ;;
   map_model_name (sample_config false) internal true)
  = Ok (VStr "text-embedding-ada-002") /\
  map_model_name (sample_config false) (VStr "llama-3.1-instruct-13b") true
  = Ok (VStr "gpt-4-turbo").
Proof.
  destruct (map_model_name_round_trip (sample_config false)) as [Hround Hlast].
  split.
  - apply (Hround "text-embedding-ada-002" "nomic-embed-text").
    + unfold wf_mapping. vm_compute.
      repeat (constructor;
              [intros H; repeat (destruct H as [H | H]; [discriminate H |]);
               exact H |]).
      constructor.
    + reflexivity.
    + intros e'. simpl.
      repeat (match goal with
              | |- context [String.eqb e' ?k] =>
                  destruct (String.eqb e' k) eqn:?
              end; [discriminate |]).
      destruct (String.eqb e' "text-embedding-ada-002") eqn:E; [| discriminate].
      intros _. now apply String.eqb_eq.
  - apply (Hlast [("gpt-3.5-turbo", "llama-3.1-instruct-13b");
                  ("gpt-4", "llama-3.1-instruct-13b")]
                 [("text-embedding-ada-002", "nomic-embed-text")]).
    + reflexivity.
    + vm_compute. intros [H | H]; [discriminate H | exact H].
Defined.

(** ** Strings *)

Section StringFacts.
Implicit Types (s p t : string).

Lemma startswith_app s p :
  PyStr.startswith s p = true <-> exists t, s = p ++ t.
Proof.
  unfold PyStr.startswith. revert s.
  induction p as [|a p IH]; intros s; simpl.
  - destruct s; split; eauto.
  - destruct s as [|b s]; simpl.
    + split; [discriminate | intros [t Ht]; discriminate].
    + destruct (ascii_dec a b) as [-> | Hne].
      * rewrite IH. split; intros [t Ht]; exists t; congruence.
      * split; [discriminate | intros [t Ht]; congruence].
Qed.

Lemma drop_app p t : PyStr.drop (String.length p) (p ++ t) = t.
Proof. induction p; simpl; auto. Qed.

Lemma existsb_eqb_in t (l : list string) :
  existsb (String.eqb t) l = true <-> In t l.
Proof.
  rewrite existsb_exists. split.
  - intros (x & Hin & Heq). apply String.eqb_eq in Heq. now subst.
  - intros Hin. exists t. split; [assumption | apply String.eqb_refl].
Qed.

(** What is left of a string that starts with a visible character is not
    empty. *)
Lemma rstrip_visible c s :
  PyStr.is_space c = false -> PyStr.rstrip (String c s) <> "".
Proof.
  intros Hc. simpl. rewrite Hc. destruct (PyStr.rstrip s); discriminate.
Qed.

End StringFacts.

(** ** Authentication *)

Section AuthClaims.
Variable config : ProxyConfig.
Variable http_client : outbound -> transport.
Variable json_loads : string -> option value.
Variable json_dumps : value -> string.

(** C10. With authentication enabled, [validate_api_key] accepts exactly
    the header values made of the prefix [Bearer ], in this case, followed
    by a key of the allow-list; with authentication disabled it accepts
    everything, a missing header included; and on a rejected header both
    completion endpoints answer 401 without an outbound call. *)
Theorem validate_api_key_bearer (authorization : option string) :
  (auth_enabled (authentication config) = true ->
   (validate_api_key config authorization = true <->
    exists token,
      authorization = Some ("Bearer " ++ token) /\
      In token (valid_api_keys (authentication config)))) /\
  (auth_enabled (authentication config) = false ->
   validate_api_key config authorization = true) /\
  (validate_api_key config authorization = false ->
   forall now request,
     chat_completions config http_client json_loads json_dumps
       now request authorization
     = ([], HTTPError 401 (Text "Invalid API key")) /\
     completions config http_client json_loads json_dumps
       now request authorization
     = ([], HTTPError 401 (Text "Invalid API key"))).
Proof.
  split; [| split].
  - intros Hon. unfold validate_api_key. rewrite Hon. cbn [negb].
    destruct authorization as [a |].
    + destruct (String.eqb a "") eqn:Hempty.
      * apply String.eqb_eq in Hempty. subst a.
        split; [discriminate | intros (t & Ht & _); discriminate].
      * destruct (PyStr.startswith a "Bearer ") eqn:Hprefix.
        -- apply startswith_app in Hprefix. destruct Hprefix as [t ->].
           change 7%nat with (String.length "Bearer ").
           rewrite drop_app, existsb_eqb_in.
           split.
           ++ intros Hin. now exists t.
           ++ intros (t' & Heq & Hin).
              injection Heq as Heq. now subst.
        -- split; [discriminate |].
           intros (t & Heq & _). injection Heq as Heq.
           assert (Hp : PyStr.startswith a "Bearer " = true)
             by (apply startswith_app; now exists t).
           congruence.
    + split; [discriminate | intros (t & Ht & _); discriminate].
  - intros Hoff. unfold validate_api_key. now rewrite Hoff.
  - intros Hrej now request.
    unfold chat_completions, completions. now rewrite Hrej.
Qed.

End AuthClaims.

Lemma validate_api_key_bearer_witness :
  validate_api_key (sample_config true) (Some "Bearer abc") = true /\
  validate_api_key (sample_config true) (Some "bearer abc") = false /\
  validate_api_key (sample_config false) None = true /\
  chat_completions (sample_config true) (fun _ => TimedOut "")
    JsonText.loads JsonText.dumps 0 {| body_text := "{}" |} None
  = ([], HTTPError 401 (Text "Invalid API key")).
Proof.
  pose proof (validate_api_key_bearer (sample_config true)
                (fun _ => TimedOut "") JsonText.loads JsonText.dumps) as Hon.
  pose proof (validate_api_key_bearer (sample_config false)
                (fun _ => TimedOut "") JsonText.loads JsonText.dumps) as Hoff.
  split; [| split; [| split]].
  - destruct (Hon (Some "Bearer abc")) as (Hiff & _ & _).
    apply (Hiff eq_refl).
    exists "abc". split; [reflexivity | simpl; now left].
  - destruct (Hon (Some "bearer abc")) as (Hiff & _ & _).
    destruct (validate_api_key (sample_config true) (Some "bearer abc")) eqn:E;
      [| reflexivity].
    destruct (proj1 (Hiff eq_refl) eq_refl) as (t & Ht & _). discriminate Ht.
  - destruct (Hoff None) as (_ & Hall & _). apply Hall. reflexivity.
  - destruct (Hon None) as (_ & _ & H401).
    apply (H401 eq_refl 0 {| body_text := "{}" |}).
Defined.

(** ** Endpoints *)

Section EndpointFacts.
Variable config : ProxyConfig.
Variable http_client : outbound -> transport.
Variable json_loads : string -> option value.
Variable json_dumps : value -> string.

(** A reply that the [try] block returns is a 200: the error replies
    come from the handlers around it. *)
Lemma completion_try_returns_200 now path fallback request authorization calls reply :
  completion_try config http_client json_loads json_dumps
    now path fallback request authorization = (calls, Ok reply) ->
  reply_status reply = 200.
Proof.
  unfold completion_try.
  destruct (request_json json_loads request) as [body | e]; [| discriminate].
  destruct (Py.get body "model" (VStr fallback)) as [original_model | e];
    [| discriminate].
  destruct (Py.get body "stream" (VBool false)) as [stream | e];
    [| discriminate].
  destruct body; try discriminate.
  destruct (transform_request_dict config d) as [transformed | e];
    [| discriminate].
  destruct (forward_request _ _ _ _ _ _ _) as [calls' forwarded].
  destruct forwarded as [response | e]; simpl; [| discriminate].
  destruct (Py.truthy stream).
  - intros [= _ <-]. reflexivity.
  - destruct (status_code response =? 200); [| discriminate].
    destruct (response_json json_loads response) as [data | e]; simpl;
      [| discriminate].
    destruct (transform_response_value config now data original_model);
      simpl; [| discriminate].
    intros [= _ <-]. reflexivity.
Qed.

(** X21. [chat_completions] answers 200, 400, 401 or 500 and nothing
    else: the 504, the 502 and the 405 that [forward_request] raises never
    reach the client as such. *)
Lemma chat_completions_statuses now request authorization :
  In (reply_status
        (snd (chat_completions config http_client json_loads json_dumps
                now request authorization)))
     [200; 400; 401; 500].
Proof.
  unfold chat_completions.
  destruct (validate_api_key config authorization); simpl; [| tauto].
  destruct (completion_try _ _ _ _ _ _ _ _ _) as [calls outcome] eqn:E.
  destruct outcome as [reply | e]; simpl.
  - rewrite (completion_try_returns_200 _ _ _ _ _ _ _ E). tauto.
  - destruct e; simpl; tauto.
Qed.

(** C9. On a request that passed authentication and whose body sets
    [stream], once the backend has answered, with whatever status, both
    completion endpoints return the 200 [text/event-stream] reply built from
    [stream_response]: the status of the backend is not looked at. *)
Theorem streaming_reply_ignores_backend_status
    now request authorization fields transformed :
  validate_api_key config authorization = true ->
  json_loads (body_text request) = Some (VDict fields) ->
  Py.truthy (Dict.get "stream" (VBool false) fields) = true ->
  transform_request_dict config fields = Ok transformed ->
  (forall calls response,
      forward_request config http_client "POST" "/v1/chat/completions"
        (Some transformed) (Some [("authorization", or_empty authorization)])
        true = (calls, Ok response) ->
      let out := chat_completions config http_client json_loads json_dumps
                   now request authorization in
      out = (calls,
             StreamingResponse
               (stream_response json_loads json_dumps response
                  (Dict.get "model" (VStr "gpt-3.5-turbo") fields))
               "text/event-stream")
      /\ reply_status (snd out) = 200) /\
  (forall calls response,
      forward_request config http_client "POST" "/v1/completions"
        (Some transformed) (Some [("authorization", or_empty authorization)])
        true = (calls, Ok response) ->
      let out := completions config http_client json_loads json_dumps
                   now request authorization in
      out = (calls,
             StreamingResponse
               (stream_response json_loads json_dumps response
                  (Dict.get "model" (VStr "text-davinci-003") fields))
               "text/event-stream")
      /\ reply_status (snd out) = 200).
Proof.
  intros Hauth Hbody Hstream Htransform.
  split; intros calls response Hforward; cbv zeta;
    unfold chat_completions, completions, completion_try, request_json;
    rewrite Hauth, Hbody; cbn [negb Py.get];
    rewrite Htransform, Hstream, Hforward; cbn [bind];
    split; reflexivity.
Qed.

(** Without [stream], a backend status other than 200 makes the [try]
    block raise an [HTTPException] with that status and the text of the
    response. *)
Lemma nonstreaming_raises_backend_status
    now path fallback request authorization fields transformed calls response :
  json_loads (body_text request) = Some (VDict fields) ->
  Py.truthy (Dict.get "stream" (VBool false) fields) = false ->
  transform_request_dict config fields = Ok transformed ->
  forward_request config http_client "POST" path
    (Some transformed) (Some [("authorization", or_empty authorization)])
    false = (calls, Ok response) ->
  status_code response <> 200 ->
  completion_try config http_client json_loads json_dumps
    now path fallback request authorization
  = (calls, Raise (HTTPException (status_code response) (text response))).
Proof.
  intros Hbody Hstream Htransform Hforward Hstatus.
  unfold completion_try, request_json.
  rewrite Hbody. cbn [Py.get]. rewrite Htransform, Hstream, Hforward.
  cbn [bind]. apply Z.eqb_neq in Hstatus. now rewrite Hstatus.
Qed.

End EndpointFacts.

Lemma streaming_reply_ignores_backend_status_witness :
  chat_completions (sample_config true) (answering sample_error_response)
    JsonText.loads JsonText.dumps 0 (sample_request true) (Some "Bearer abc")
  = ([{| ob_method := "POST";
         ob_url := "http://10.50.10.14:1234/v1/chat/completions";
         ob_json := Some [("model", VStr "llama-3.1-instruct-13b");
                          ("messages", VList []);
                          ("stream", VBool true)];
         ob_headers := [];
         ob_no_timeout := true |}],
     StreamingResponse ([], None) "text/event-stream").
Proof.
  destruct (streaming_reply_ignores_backend_status
              (sample_config true) (answering sample_error_response)
              JsonText.loads JsonText.dumps 0 (sample_request true)
              (Some "Bearer abc")
              [("model", VStr "gpt-3.5-turbo"); ("messages", VList []);
               ("stream", VBool true)]
              [("model", VStr "llama-3.1-instruct-13b");
               ("messages", VList []); ("stream", VBool true)]
              eq_refl eq_refl eq_refl eq_refl)
    as [Hchat _].
  exact (proj1 (Hchat _ sample_error_response eq_refl)).
Defined.

(** ** Forwarder *)

Section ForwarderFacts.
Variable http_client : outbound -> transport.

Lemma send_timeout call msg :
  http_client call = TimedOut msg ->
  send http_client call = ([call], Raise (HTTPException 504 "Backend timeout")).
Proof. intros H. unfold send. now rewrite H. Qed.

Lemma send_failure call msg :
  http_client call = Failed msg ->
  send http_client call
  = ([call], Raise (HTTPException 502 ("Backend error: " ++ msg))).
Proof. intros H. unfold send. now rewrite H. Qed.

Lemma send_response call response :
  http_client call = Responded response ->
  send http_client call = ([call], Ok response).
Proof. intros H. unfold send. now rewrite H. Qed.

End ForwarderFacts.

(** C2. On a backend that times out, and on one that refuses the
    connection, [forward_request] raises the 504 and the 502 exception, the
    latter with the description of the transport error; [chat_completions]
    catches either in its [except Exception] clause and answers 500. *)
Theorem transport_failure_answered_500 :
  snd (forward_request (sample_config false) timing_out
         "POST" "/v1/chat/completions" None None false)
  = Raise (HTTPException 504 "Backend timeout") /\
  snd (forward_request (sample_config false) refusing
         "POST" "/v1/chat/completions" None None false)
  = Raise (HTTPException 502 "Backend error: All connection attempts failed") /\
  snd (chat_completions (sample_config false) timing_out
         JsonText.loads JsonText.dumps 0 (sample_request false) None)
  = HTTPError 500 (StrOf (HTTPException 504 "Backend timeout")) /\
  snd (chat_completions (sample_config false) refusing
         JsonText.loads JsonText.dumps 0 (sample_request false) None)
  = HTTPError 500
      (StrOf (HTTPException 502
                "Backend error: All connection attempts failed")).
Proof. repeat split; vm_compute; reflexivity. Qed.

(** ** Stream transformer *)

Section StreamFacts.
Variable json_loads : string -> option value.
Variable json_dumps : value -> string.
Implicit Types (data line : string) (original_model : value).

Lemma data_line_not_blank data :
  String.eqb (PyStr.strip ("data: " ++ data)) "" = false.
Proof.
  apply String.eqb_neq. unfold PyStr.strip.
  change (PyStr.lstrip ("data: " ++ data)) with ("data: " ++ data).
  now apply rstrip_visible.
Qed.

Lemma data_line_prefix data : PyStr.startswith ("data: " ++ data) "data: " = true.
Proof. apply startswith_app. now exists data. Qed.

Lemma data_line_payload data : PyStr.drop 6 ("data: " ++ data) = data.
Proof. exact (drop_app "data: " data). Qed.

(** An empty or whitespace-only line yields nothing. *)
Lemma stream_line_blank line original_model :
  PyStr.strip line = "" -> stream_line json_loads json_dumps line original_model = Ok None.
Proof. intros H. unfold stream_line. now rewrite H. Qed.

(** The sentinel, whatever whitespace surrounds it, is yielded bare. *)
Lemma stream_line_done data original_model :
  PyStr.strip data = "[DONE]" ->
  stream_line json_loads json_dumps ("data: " ++ data) original_model
  = Ok (Some ("data: [DONE]" ++ newline ++ newline)).
Proof.
  intros H. unfold stream_line.
  rewrite data_line_not_blank, data_line_prefix, data_line_payload, H.
  reflexivity.
Qed.

(** X11. A payload that parses to an object is yielded again, serialised,
    with its [model] field, when it has one, set to the original model and
    no [model] field added when it has none. *)
Lemma stream_line_object data fields original_model :
  PyStr.strip data <> "[DONE]" ->
  json_loads data = Some (VDict fields) ->
  stream_line json_loads json_dumps ("data: " ++ data) original_model
  = Ok (Some ("data: "
              ++ json_dumps
                   (VDict (if Dict.mem "model" fields
                           then Dict.set "model" original_model fields
                           else fields))
              ++ newline ++ newline)).
Proof.
  intros Hdone Hparse. unfold stream_line.
  rewrite data_line_not_blank, data_line_prefix, data_line_payload, Hparse.
  apply String.eqb_neq in Hdone. rewrite Hdone. simpl.
  destruct (Dict.mem "model" fields); reflexivity.
Qed.


(** A payload that parses to a number, a boolean or [null] makes the
    generator raise: [in] is not defined on it. *)
Lemma stream_line_scalar data chunk original_model :
  PyStr.strip data <> "[DONE]" ->
  json_loads data = Some chunk ->
  match chunk with
  | VNone | VBool _ | VInt _ | VFloat _ => True
  | _ => False
  end ->
  stream_line json_loads json_dumps ("data: " ++ data) original_model = Raise TypeError.
Proof.
  intros Hdone Hparse Hscalar. unfold stream_line.
  rewrite data_line_not_blank, data_line_prefix, data_line_payload, Hparse.
  apply String.eqb_neq in Hdone. rewrite Hdone.
  destruct chunk; simpl; tauto.
Qed.

(** X8. The generator keeps no state between lines: the run over two
    sequences one after the other is the run over the first, followed,
    unless the first ended in an exception, by the run over the second. *)
Lemma stream_lines_app ls1 ls2 original_model :
  stream_lines json_loads json_dumps (ls1 ++ ls2) original_model
  = match stream_lines json_loads json_dumps ls1 original_model with
    | (events, Some e) => (events, Some e)
    | (events, None) =>
        let '(events', ended) := stream_lines json_loads json_dumps ls2 original_model in
        ((events ++ events')%list, ended)
    end.
Proof.
  induction ls1 as [|line ls1 IH]; simpl.
  - now destruct (stream_lines json_loads json_dumps ls2 original_model).
  - destruct (stream_line json_loads json_dumps line original_model) as [[event |] | e];
      [| exact IH | reflexivity].
    rewrite IH.
    destruct (stream_lines json_loads json_dumps ls1 original_model) as [events [e |]];
      [reflexivity |].
    now destruct (stream_lines json_loads json_dumps ls2 original_model).
Qed.

(** C4, as amended. A line whose payload, trimmed, is the sentinel makes
    the generator yield [data: [DONE]] and the event separator; the lines
    that follow it are transformed like any other, and the output ends where
    the input ends. *)
Theorem stream_done_is_reframed data rest original_model :
  PyStr.strip data = "[DONE]" ->
  stream_lines json_loads json_dumps (("data: " ++ data) :: rest) original_model
  = let '(events, ended) := stream_lines json_loads json_dumps rest original_model in
    (("data: [DONE]" ++ newline ++ newline) :: events, ended).
Proof.
  intros H. cbn [stream_lines]. now rewrite (stream_line_done _ original_model H).
Qed.

End StreamFacts.

Lemma stream_done_is_reframed_witness :
  stream_lines JsonText.loads JsonText.dumps
    ["data:  [DONE] "; ""; "data: {not valid json"] (VStr "gpt-3.5-turbo")
  = (["data: [DONE]" ++ newline ++ newline;
      "data: {not valid json" ++ newline ++ newline], None).
Proof.
  exact (stream_done_is_reframed JsonText.loads JsonText.dumps
           " [DONE] " [""; "data: {not valid json"] (VStr "gpt-3.5-turbo")
           eq_refl).
Defined.

(** C4, as stated, fails: after the sentinel the generator goes on, and a
    line that follows it still produces an event. *)
Lemma stream_continues_after_done :
  fst (stream_lines JsonText.loads JsonText.dumps
         ["data: [DONE]"; "data: {not valid json"] (VStr "gpt-3.5-turbo"))
  = ["data: [DONE]" ++ newline ++ newline;
     "data: {not valid json" ++ newline ++ newline] /\
  fst (stream_lines JsonText.loads JsonText.dumps
         ["data: [DONE]"; "data: {not valid json"] (VStr "gpt-3.5-turbo"))
  <> ["data: [DONE]" ++ newline ++ newline].
Proof. split; [reflexivity | discriminate]. Qed.

(** The streaming scenario of the specification: a chunk, a blank line and
    the sentinel give two events, the chunk with its model rewritten and
    the sentinel. *)
Lemma stream_scenario :
  stream_lines JsonText.loads JsonText.dumps
    [sample_chunk_line; ""; "data: [DONE]"] (VStr "gpt-3.5-turbo")
  = ([sample_chunk_event; "data: [DONE]" ++ newline ++ newline], None).
Proof. reflexivity. Qed.

(** C3. The line [data: 5] carries a payload that parses as JSON, yet the
    generator raises [TypeError] on it: the event is dropped and the stream
    ends there, before the sentinel that follows. *)
Theorem stream_scalar_payload_raises :
  JsonText.loads "5" = Some (VInt 5) /\
  stream_line JsonText.loads JsonText.dumps "data: 5" (VStr "gpt-3.5-turbo")
  = Raise TypeError /\
  stream_lines JsonText.loads JsonText.dumps
    ["data: 5"; "data: [DONE]"] (VStr "gpt-3.5-turbo")
  = ([], Some TypeError).
Proof. repeat split; reflexivity. Qed.

(** ** Response normalizer *)

Section ResponseFacts.
Variable config : ProxyConfig.
Implicit Types (d body : dict) (original_model : value).

Lemma set_lookup_same {V : Type} k (v : V) (l : list (string * V)) :
  Dict.lookup k l = Some v -> Dict.set k v l = l.
Proof.
  induction l as [|[k' v'] l IH]; simpl; [discriminate |].
  destruct (String.eqb k k') eqn:E.
  - now intros [= ->].
  - intros H. now rewrite IH.
Qed.

Lemma mem_lookup {V : Type} k (l : list (string * V)) :
  Dict.mem k l = true <-> exists v, Dict.lookup k l = Some v.
Proof.
  unfold Dict.mem. destruct (Dict.lookup k l); split; eauto.
  - discriminate.
  - intros [v H]; discriminate.
Qed.

(** [config.response] raises, whatever the body: the function never
    returns. *)
Lemma transform_response_body_raises now body original_model :
  transform_response_body config now body original_model = Raise AttributeError.
Proof. reflexivity. Qed.

Lemma backfill_fields_settled now body original_model :
  fields_settled original_model (backfill_fields now body original_model).
Proof.
  unfold fields_settled, backfill_fields.
  destruct (Dict.mem "model" body) eqn:Hmodel;
    destruct (Dict.mem "object" body) eqn:Hobject;
    destruct (Dict.mem "choices" body) eqn:Hchoices;
    destruct (Dict.mem "created" body) eqn:Hcreated;
    repeat (rewrite ?mem_set_same, ?Hmodel, ?Hobject, ?Hchoices, ?Hcreated;
            rewrite ?mem_set_other by discriminate;
            cbn [negb andb]);
    (split; [| split; [congruence || (intros _; reflexivity) || idtac
                      | reflexivity || idtac]]);
    rewrite ?lookup_set_other by discriminate;
    rewrite ?lookup_set_same;
    try congruence;
    try (intros v Hv;
         assert (Hm : Dict.mem "model" body = true)
           by (apply mem_lookup; eauto);
         congruence).
Qed.

Lemma backfill_fields_fixed now d original_model :
  fields_settled original_model d -> backfill_fields now d original_model = d.
Proof.
  intros (Hmodel & Hobject & Hcreated). unfold backfill_fields.
  assert (H1 : (if Dict.mem "model" d
                then Dict.set "model" original_model d else d) = d).
  { destruct (Dict.mem "model" d) eqn:E; [| reflexivity].
    apply mem_lookup in E. destruct E as [v Hv].
    apply set_lookup_same. now rewrite Hv, (Hmodel v Hv). }
  rewrite H1.
  destruct (Dict.mem "object" d) eqn:E; cbn [negb andb].
  - now rewrite Hcreated.
  - rewrite (Hobject eq_refl). now rewrite Hcreated.
Qed.

Lemma fields_settled_usage d original_model usage :
  fields_settled original_model d ->
  fields_settled original_model (Dict.set "usage" usage d).
Proof.
  unfold fields_settled.
  rewrite !mem_set_other by discriminate.
  rewrite lookup_set_other by discriminate.
  tauto.
Qed.

(** The estimate either leaves the body alone or writes its [usage]. *)
Lemma backfill_usage_shape d d' :
  backfill_usage d = Ok d' -> d' = d \/ exists usage, d' = Dict.set "usage" usage d.
Proof.
  unfold backfill_usage.
  destruct (Dict.lookup "choices" d) as [choices |]; [| intros [= <-]; now left].
  destruct (Py.len choices) as [n | e]; simpl; [| discriminate].
  destruct (0 <? n); [| intros [= <-]; now left].
  destruct (Py.getitem0 choices) as [first | e]; simpl; [| discriminate].
  destruct (Py.contains "message" first) as [has_message | e]; simpl;
    [| discriminate].
  match goal with
  | |- bind ?c _ = _ -> _ => destruct c as [content | e]; simpl; [| discriminate]
  end.
  destruct (Py.split content) as [words | e]; simpl; [| discriminate].
  intros [= <-]. right. eauto.
Qed.

(** Were [config.response] to evaluate to a section [section] of the
    configuration, normalising a normalised body would change nothing: the
    three back-fills and the estimate are each at rest once their field is
    set. *)
Lemma normalize_idempotent_given_section section now now' body original_model d :
  usage_step (Ok section) (backfill_fields now body original_model) = Ok d ->
  usage_step (Ok section) (backfill_fields now' d original_model) = Ok d.
Proof.
  pose proof (backfill_fields_settled now body original_model) as Hsettled.
  set (t := backfill_fields now body original_model) in *.
  unfold usage_step. cbn [bind].
  destruct (Py.truthy (Dict.get "add_usage_stats" (VBool true) section)) eqn:Hflag;
    cbn [andb].
  - destruct (Dict.mem "usage" t) eqn:Husage; cbn [negb].
    + intros [= <-]. rewrite (backfill_fields_fixed _ _ _ Hsettled).
      now rewrite Husage.
    + intros Hfill.
      destruct (backfill_usage_shape _ _ Hfill) as [-> | [usage ->]].
      * rewrite (backfill_fields_fixed _ _ _ Hsettled).
        now rewrite Husage.
      * rewrite (backfill_fields_fixed _ _ _
                   (fields_settled_usage _ _ _ Hsettled)).
        now rewrite mem_set_same.
  - intros [= <-]. now rewrite (backfill_fields_fixed _ _ _ Hsettled).
Qed.

(** The estimate on a first choice that carries a message: the word count
    of its content. *)
Lemma backfill_usage_message d first rest message content :
  Dict.lookup "choices" d = Some (VList (VDict first :: rest)) ->
  Dict.lookup "message" first = Some (VDict message) ->
  Dict.get "content" (VStr "") message = VStr content ->
  backfill_usage d
  = Ok (Dict.set "usage"
          (usage_estimate (Z.of_nat (List.length (PyStr.split content)))) d).
Proof.
  intros Hchoices Hmessage Hcontent. unfold backfill_usage.
  rewrite Hchoices. cbn [Py.len bind List.length].
  replace (0 <? Z.of_nat (S (List.length rest))) with true
    by (symmetry; apply Z.ltb_lt; lia).
  cbn [Py.getitem0 bind Py.contains]. unfold Dict.mem. rewrite Hmessage.
  cbn [bind Py.getitem]. rewrite Hmessage. cbn [bind Py.get].
  rewrite Hcontent. reflexivity.
Qed.

(** The estimate on a first choice without a message but with a text. *)
Lemma backfill_usage_text d first rest content :
  Dict.lookup "choices" d = Some (VList (VDict first :: rest)) ->
  Dict.lookup "message" first = None ->
  Dict.lookup "text" first = Some (VStr content) ->
  backfill_usage d
  = Ok (Dict.set "usage"
          (usage_estimate (Z.of_nat (List.length (PyStr.split content)))) d).
Proof.
  intros Hchoices Hmessage Htext. unfold backfill_usage.
  rewrite Hchoices. cbn [Py.len bind List.length].
  replace (0 <? Z.of_nat (S (List.length rest))) with true
    by (symmetry; apply Z.ltb_lt; lia).
  cbn [Py.getitem0 bind Py.contains]. unfold Dict.mem. rewrite Hmessage, Htext.
  cbn [bind Py.getitem]. rewrite Htext. reflexivity.
Qed.

(** C1. On the body [{"choices": [{"message": {"content": "one two
    three"}}]}] the function raises [AttributeError] at [config.response]
    and returns no body, although the estimate it was about to write is the
    one the specification gives, with 3 tokens. *)
Theorem usage_backfill_unreached now original_model :
  transform_response_body config now usage_example_body original_model
  = Raise AttributeError /\
  backfill_usage (backfill_fields now usage_example_body original_model)
  = Ok [("choices",
         VList [VDict [("message",
                        VDict [("content", VStr "one two three")])]]);
        ("object", VStr "chat.completion");
        ("created", VInt now);
        ("usage", usage_estimate 3)].
Proof. split; reflexivity. Qed.

(** C8. Normalising raises [AttributeError] on every body, so a second
    normalisation never has a normalised body to start from. *)
Theorem normalize_twice_raises now now' body original_model :
  transform_response_body config now body original_model
  = Raise AttributeError /\
  (normalized <- transform_response_body config now body original_model ;;
   transform_response_body config now' normalized original_model)
  = Raise AttributeError.
Proof. split; reflexivity. Qed.

End ResponseFacts.

(** The request of [test_chat_completion_basic], answered by the backend
    with status 200 and the body of the test: the test expects a 200 with
    the model mapped back, the endpoint answers 500. *)
Lemma basic_test_is_answered_500 :
  JsonText.loads (text basic_test_response) = Some (VDict basic_test_body) /\
  snd (chat_completions (sample_config false) (answering basic_test_response)
         JsonText.loads JsonText.dumps 0 (sample_request false) None)
  = HTTPError 500 (StrOf AttributeError).
Proof. split; vm_compute; reflexivity. Qed.

(** ** Request normalizer *)

Section HeapFacts.
Implicit Types (l : Heap.loc) (h : Heap.heap) (d : dict).

Lemma read_write_same l d h :
  Heap.valid l h -> Heap.read l (Heap.write l d h) = d.
Proof.
  unfold Heap.valid, Heap.read. revert l.
  induction h as [|x h IH]; intros [|l] Hl; simpl in *; try lia.
  - reflexivity.
  - apply IH. lia.
Qed.

Lemma read_write_other l l' d h :
  l <> l' -> Heap.read l (Heap.write l' d h) = Heap.read l h.
Proof.
  unfold Heap.read. revert l l'.
  induction h as [|x h IH]; intros [|l] [|l'] Hne; simpl;
    try reflexivity; try congruence.
  apply IH. congruence.
Qed.

Lemma length_write l d h :
  List.length (Heap.write l d h) = List.length h.
Proof.
  revert l. induction h as [|x h IH]; intros [|l]; simpl; auto.
Qed.

(** A copy is a new object with the items of the original, and leaves
    every object of the heap as it was. *)
Lemma copy_fresh l h :
  let '(l', h') := Heap.copy l h in
  ~ Heap.valid l' h /\ Heap.valid l' h' /\
  Heap.read l' h' = Heap.read l h /\
  (forall l0, Heap.valid l0 h -> Heap.read l0 h' = Heap.read l0 h).
Proof.
  unfold Heap.copy, Heap.valid, Heap.read. repeat split.
  - lia.
  - rewrite length_app. simpl. lia.
  - now rewrite nth_middle.
  - intros l0 Hl0. now apply app_nth1.
Qed.

End HeapFacts.

Section RequestClaims.
Variable config : ProxyConfig.

(** C7, as amended. On a body whose [model], when present, is hashable,
    that is no list and no dict, the function returns a new object and
    leaves the body and every other object untouched. The new object has
    the items of the body in their order, but for [model]: a present [model]
    holds what [map_model_name] returns for it, an absent one is added with
    the default model of the configuration. *)
Theorem transform_request_body_copies (body : Heap.loc) (h : Heap.heap) :
  Heap.valid body h ->
  (forall model,
      Dict.lookup "model" (Heap.read body h) = Some model ->
      Py.hashable model = true) ->
  exists transformed h',
    transform_request_body config body h = Ok (transformed, h') /\
    transformed <> body /\
    (forall l, Heap.valid l h -> Heap.read l h' = Heap.read l h) /\
    match Dict.lookup "model" (Heap.read body h) with
    | Some model =>
        exists mapped,
          map_model_name config model false = Ok mapped /\
          Heap.read transformed h'
          = Dict.set "model" mapped (Heap.read body h)
    | None =>
        Heap.read transformed h'
        = (Heap.read body h ++ [("model", VStr (default_model config))])%list
    end /\
    (forall k,
        k <> "model" ->
        Dict.lookup k (Heap.read transformed h')
        = Dict.lookup k (Heap.read body h)).
Proof.
  intros Hvalid Hhash. unfold transform_request_body.
  pose proof (copy_fresh body h) as Hcopy.
  destruct (Heap.copy body h) as [t h1].
  destruct Hcopy as (Hfresh & Hvalid1 & Hread & Hkeep).
  assert (Hne : t <> body) by (intros ->; contradiction).
  assert (Hothers : forall v l, Heap.valid l h ->
            Heap.read l (Heap.setitem t "model" v h1) = Heap.read l h).
  { intros v l Hl. unfold Heap.setitem.
    rewrite read_write_other by (intros ->; contradiction). now apply Hkeep. }
  assert (Hnew : forall v,
            Heap.read t (Heap.setitem t "model" v h1)
            = Dict.set "model" v (Heap.read body h)).
  { intros v. unfold Heap.setitem.
    rewrite read_write_same by assumption. now rewrite Hread. }
  rewrite Hread.
  destruct (Dict.lookup "model" (Heap.read body h)) as [model |] eqn:Hmodel.
  - assert (Hmapped : exists mapped,
               map_model_name config model false = Ok mapped).
    { unfold map_model_name, mapping_get. rewrite (Hhash model eq_refl).
      destruct model; eauto.
      destruct (Dict.lookup s (model_mapping config)); eauto. }
    destruct Hmapped as [mapped Hmapped]. rewrite Hmapped. cbn [bind].
    exists t, (Heap.setitem t "model" mapped h1).
    repeat split; auto.
    + exists mapped. split; [reflexivity | apply Hnew].
    + intros k Hk. rewrite Hnew. now apply lookup_set_other.
  - exists t, (Heap.setitem t "model" (VStr (default_model config)) h1).
    repeat split; auto.
    + rewrite Hnew. now apply set_absent.
    + intros k Hk. rewrite Hnew. now apply lookup_set_other.
Qed.

End RequestClaims.

Lemma transform_request_body_copies_witness :
  transform_request_body (sample_config false) 0%nat
    [[("model", VStr "gpt-4"); ("temperature", VFloat "0.7")]]
  = Ok (1%nat,
        [[("model", VStr "gpt-4"); ("temperature", VFloat "0.7")];
         [("model", VStr "llama-3.1-instruct-13b");
          ("temperature", VFloat "0.7")]]).
Proof.
  destruct (transform_request_body_copies (sample_config false) 0%nat
              [[("model", VStr "gpt-4"); ("temperature", VFloat "0.7")]])
    as (t & h' & Hrun & _).
  - unfold Heap.valid. simpl. lia.
  - simpl. intros model [= <-]. reflexivity.
  - rewrite Hrun. vm_compute in Hrun. now injection Hrun as <- <-.
Defined.

(** C7, as stated, fails: on the body [{"model": []}] the lookup of the
    model in the mapping raises [TypeError], a list being unhashable, and no
    body is returned. *)
Lemma transform_request_body_list_model :
  transform_request_body (sample_config false) 0%nat [list_model_body]
  = Raise TypeError.
Proof. reflexivity. Qed.

(** * Further properties of the code *)

(** ** Forwarder: headers, methods and calls *)

Section PopFacts.
Context {V : Type}.
Implicit Types (d : list (string * V)) (k : string).

Lemma lookup_pop_other k k' d :
  k <> k' -> Dict.lookup k (Dict.pop k' d) = Dict.lookup k d.
Proof.
  intros Hne. induction d as [|[k0 v0] d IH]; simpl; [reflexivity |].
  destruct (String.eqb k' k0) eqn:E.
  - apply String.eqb_eq in E. subst k0.
    apply String.eqb_neq in Hne. now rewrite Hne.
  - simpl. now rewrite IH.
Qed.

Lemma lookup_pop_same k d :
  NoDup (Dict.keys d) -> Dict.lookup k (Dict.pop k d) = None.
Proof.
  induction d as [|[k0 v0] d IH]; simpl; [reflexivity |].
  intros Hnd. inversion Hnd as [|? ? Hnotin Hnd']; subst.
  destruct (String.eqb k k0) eqn:E.
  - apply String.eqb_eq in E. subst k0. now apply lookup_none_keys.
  - simpl. rewrite E. auto.
Qed.

Lemma keys_pop_incl k d x : In x (Dict.keys (Dict.pop k d)) -> In x (Dict.keys d).
Proof.
  induction d as [|[k0 v0] d IH]; simpl; [tauto |].
  destruct (String.eqb k k0); simpl; tauto.
Qed.

Lemma keys_pop_nodup k d : NoDup (Dict.keys d) -> NoDup (Dict.keys (Dict.pop k d)).
Proof.
  induction d as [|[k0 v0] d IH]; simpl; [auto |].
  intros Hnd. inversion Hnd as [|? ? Hnotin Hnd']; subst.
  destruct (String.eqb k k0); simpl; [assumption |].
  constructor; [| auto].
  intros Hin. apply Hnotin. now apply keys_pop_incl in Hin.
Qed.

End PopFacts.

Section ForwarderProps.
Variable config : ProxyConfig.
Variable http_client : outbound -> transport.

(** The calls of [forward_request] and its result, spelled out: no call
    when the backend is not configured or the method is not supported, else
    one call sent through [send]. *)
Lemma forward_request_cases method path body headers stream :
  let made := forward_request config http_client method path body headers stream in
  made = ([], Raise (KeyError "primary")) \/
  made = ([], Raise (HTTPException 405 ("Method " ++ method ++ " not supported"))) \/
  exists primary call,
    Dict.lookup "primary" (backends config) = Some primary /\
    made = send http_client call /\
    ob_method call = method /\
    ob_url call = url primary ++ path /\
    ob_headers call
    = Dict.pop "Authorization"
        (Dict.pop "authorization"
           (match headers with Some hs => hs | None => [] end)) /\
    ob_json call = (if String.eqb method "POST" then body else None) /\
    ob_no_timeout call = (String.eqb method "POST" && stream).
Proof.
  cbv zeta. unfold forward_request.
  destruct (Dict.lookup "primary" (backends config)) as [primary |];
    [| now left].
  right.
  destruct (String.eqb method "GET") eqn:Hget.
  { apply String.eqb_eq in Hget. subst method. right.
    eexists primary, _. repeat split. }
  destruct (String.eqb method "POST") eqn:Hpost.
  { apply String.eqb_eq in Hpost. subst method. right.
    destruct stream; eexists primary, _; repeat split. }
  destruct (String.eqb method "DELETE") eqn:Hdelete.
  { apply String.eqb_eq in Hdelete. subst method. right.
    eexists primary, _. repeat split. }
  now left.
Qed.

(** X1. Whatever headers it is given, [forward_request] sends none named
    [authorization] or [Authorization] to the backend, and sends every
    other header as it got it. *)
Theorem forward_request_strips_authorization
    method path body hs stream call :
  NoDup (Dict.keys hs) ->
  In call (fst (forward_request config http_client method path body (Some hs) stream)) ->
  Dict.lookup "authorization" (ob_headers call) = None /\
  Dict.lookup "Authorization" (ob_headers call) = None /\
  (forall k, k <> "authorization" -> k <> "Authorization" ->
             Dict.lookup k (ob_headers call) = Dict.lookup k hs).
Proof.
  intros Hnd Hin.
  destruct (forward_request_cases method path body (Some hs) stream)
    as [H | [H | (primary & call0 & _ & H & _ & _ & Hheaders & _)]];
    cbv zeta in H; rewrite H in Hin; simpl in Hin; try tauto.
  destruct Hin as [<- | []]. rewrite Hheaders.
  repeat split.
  - rewrite lookup_pop_other by discriminate. now apply lookup_pop_same.
  - apply lookup_pop_same. now apply keys_pop_nodup.
  - intros k H1 H2. now rewrite !lookup_pop_other by assumption.
Qed.

(** X2. A method other than GET, POST and DELETE is refused with the 405
    exception, and no call is made for it. *)
Theorem forward_request_unsupported_method
    method path body headers stream primary :
  Dict.lookup "primary" (backends config) = Some primary ->
  method <> "GET" -> method <> "POST" -> method <> "DELETE" ->
  forward_request config http_client method path body headers stream
  = ([], Raise (HTTPException 405 ("Method " ++ method ++ " not supported"))).
Proof.
  intros Hprimary Hget Hpost Hdelete. unfold forward_request.
  rewrite Hprimary.
  apply String.eqb_neq in Hget, Hpost, Hdelete.
  now rewrite Hget, Hpost, Hdelete.
Qed.

(** X3. [forward_request] makes at most one outbound call: there is no
    retry, whatever [max_retries] the configuration holds. *)
Theorem forward_request_single_attempt method path body headers stream :
  (List.length
     (fst (forward_request config http_client method path body headers stream))
   <= 1)%nat.
Proof.
  destruct (forward_request_cases method path body headers stream)
    as [H | [H | (primary & call & _ & H & _)]];
    cbv zeta in H; rewrite H; simpl; lia.
Qed.

(** X4. What a call of [forward_request] looks like: it goes to the URL of
    the primary backend followed by the path, with the method asked for;
    only a POST carries the body, and only a streaming POST is sent without
    a timeout. *)
Theorem forward_request_call_shape method path body headers stream call :
  In call (fst (forward_request config http_client method path body headers stream)) ->
  ob_method call = method /\
  (exists primary,
      Dict.lookup "primary" (backends config) = Some primary /\
      ob_url call = url primary ++ path) /\
  (method <> "POST" -> ob_json call = None /\ ob_no_timeout call = false) /\
  (method = "POST" -> ob_json call = body /\ ob_no_timeout call = stream).
Proof.
  intros Hin.
  destruct (forward_request_cases method path body headers stream)
    as [H | [H | (primary & call0 & Hp & H & Hm & Hu & _ & Hj & Ht)]];
    cbv zeta in H; rewrite H in Hin; simpl in Hin; try tauto.
  destruct Hin as [<- | []].
  split; [assumption |]. split; [eauto |].
  rewrite Hj, Ht. split.
  - intros Hne. apply String.eqb_neq in Hne. now rewrite Hne.
  - intros ->. split; reflexivity.
Qed.

(** X5. The result of [forward_request] after a call is read off the
    transport alone: a response comes back as it is, whatever its status, a
    timeout becomes the 504 exception and any other transport error the 502
    exception with the description of the error. *)
Theorem forward_request_outcome method path body headers stream call :
  In call (fst (forward_request config http_client method path body headers stream)) ->
  snd (forward_request config http_client method path body headers stream)
  = match http_client call with
    | Responded response => Ok response
    | TimedOut _ => Raise (HTTPException 504 "Backend timeout")
    | Failed msg => Raise (HTTPException 502 ("Backend error: " ++ msg))
    end.
Proof.
  intros Hin.
  destruct (forward_request_cases method path body headers stream)
    as [H | [H | (primary & call0 & _ & H & _)]];
    cbv zeta in H; rewrite H in Hin |- *; simpl in Hin; try tauto.
  destruct Hin as [<- | []]. reflexivity.
Qed.

End ForwarderProps.

Lemma forward_request_strips_authorization_witness :
  Dict.lookup "authorization" (ob_headers (sample_post_call false)) = None /\
  Dict.lookup "Authorization" (ob_headers (sample_post_call false)) = None /\
  (forall k, k <> "authorization" -> k <> "Authorization" ->
             Dict.lookup k (ob_headers (sample_post_call false))
             = Dict.lookup k sample_headers).
Proof.
  exact (forward_request_strips_authorization (sample_config false)
           (answering sample_error_response)
           "POST" "/v1/chat/completions" None sample_headers false
           (sample_post_call false)
           sample_headers_distinct (sample_post_call_made false)).
Defined.

Lemma forward_request_unsupported_method_witness :
  forward_request (sample_config false) (answering sample_error_response)
    "PATCH" "/v1/fine_tuning/jobs" (Some []) None false
  = ([], Raise (HTTPException 405 "Method PATCH not supported")).
Proof.
  apply (forward_request_unsupported_method (sample_config false)
           (answering sample_error_response)
           "PATCH" "/v1/fine_tuning/jobs" (Some []) None false sample_backend);
    [reflexivity | discriminate | discriminate | discriminate].
Defined.

Lemma forward_request_call_shape_witness :
  ob_method (sample_post_call true) = "POST" /\
  (exists primary,
      Dict.lookup "primary" (backends (sample_config false)) = Some primary /\
      ob_url (sample_post_call true) = url primary ++ "/v1/chat/completions") /\
  ("POST" <> "POST" ->
   ob_json (sample_post_call true) = None /\
   ob_no_timeout (sample_post_call true) = false) /\
  ("POST" = "POST" ->
   ob_json (sample_post_call true) = None /\
   ob_no_timeout (sample_post_call true) = true).
Proof.
  exact (forward_request_call_shape (sample_config false)
           (answering sample_error_response)
           "POST" "/v1/chat/completions" None (Some sample_headers) true
           (sample_post_call true) (sample_post_call_made true)).
Defined.

Lemma forward_request_outcome_witness :
  snd (forward_request (sample_config false) (answering sample_error_response)
         "POST" "/v1/chat/completions" None (Some sample_headers) false)
  = Ok sample_error_response.
Proof.
  exact (forward_request_outcome (sample_config false)
           (answering sample_error_response)
           "POST" "/v1/chat/completions" None (Some sample_headers) false
           (sample_post_call false) (sample_post_call_made false)).
Defined.

(** ** Stream transformer: framing, counting and composition *)

Section StreamProps.
Variable json_loads : string -> option value.
Variable json_dumps : value -> string.
Implicit Types (line data event : string) (original_model : value).

Lemma stream_line_event_inv line original_model event :
  stream_line json_loads json_dumps line original_model = Ok (Some event) ->
  is_data_line line = true /\ framed event.
Proof.
  unfold stream_line, is_data_line, framed.
  destruct (String.eqb (PyStr.strip line) ""); [discriminate |].
  destruct (PyStr.startswith line "data: "); [| discriminate].
  intros H. split; [reflexivity |].
  destruct (String.eqb (PyStr.strip (PyStr.drop 6 line)) "[DONE]").
  { injection H as <-. now exists "[DONE]". }
  destruct (json_loads (PyStr.drop 6 line)) as [chunk |].
  - destruct (Py.contains "model" chunk) as [has_model | e]; cbn [bind] in H;
      [| discriminate].
    destruct has_model.
    + destruct (Py.setitem chunk "model" original_model) as [chunk' | e];
        cbn [bind] in H; [| discriminate].
      injection H as <-. now exists (json_dumps chunk').
    + cbn [bind] in H. injection H as <-. now exists (json_dumps chunk).
  - injection H as <-. now exists (PyStr.drop 6 line).
Qed.

Lemma stream_line_silent_inv line original_model :
  stream_line json_loads json_dumps line original_model = Ok None ->
  is_data_line line = false.
Proof.
  unfold stream_line, is_data_line.
  destruct (String.eqb (PyStr.strip line) ""); [reflexivity |].
  destruct (PyStr.startswith line "data: "); [| reflexivity].
  destruct (String.eqb (PyStr.strip (PyStr.drop 6 line)) "[DONE]");
    [discriminate |].
  destruct (json_loads (PyStr.drop 6 line)) as [chunk |]; [| discriminate].
  destruct (Py.contains "model" chunk) as [[|] | e]; simpl; try discriminate.
  destruct (Py.setitem chunk "model" original_model); discriminate.
Qed.


(** X6. A line that is not blank and does not start with the data marker,
    such as an [event:] line, a comment, or [data:] without the space, is
    dropped without a trace and without an error. *)
Theorem stream_line_drops_other_lines line original_model :
  PyStr.startswith line "data: " = false ->
  stream_line json_loads json_dumps line original_model = Ok None.
Proof.
  intros H. unfold stream_line. rewrite H.
  now destruct (String.eqb (PyStr.strip line) "").
Qed.

(** X7. Every event the generator yields is framed: the data marker, a
    payload, and the blank-line separator. *)
Theorem stream_events_framed ls original_model :
  Forall framed (fst (stream_lines json_loads json_dumps ls original_model)).
Proof.
  induction ls as [|line ls IH]; simpl; [constructor |].
  destruct (stream_line json_loads json_dumps line original_model)
    as [[event |] | e] eqn:E; simpl; auto.
  destruct (stream_lines json_loads json_dumps ls original_model)
    as [events ended]; simpl in *.
  constructor; [| assumption].
  now apply (stream_line_event_inv _ _ _ E).
Qed.

(** X9. The generator yields at most one event per data line and none for
    other lines; when it ends without an exception it has yielded exactly
    one event per data line. *)
Theorem stream_event_count ls original_model :
  let run := stream_lines json_loads json_dumps ls original_model in
  (List.length (fst run) <= List.length (filter is_data_line ls))%nat /\
  (snd run = None ->
   List.length (fst run) = List.length (filter is_data_line ls)).
Proof.
  cbv zeta. induction ls as [|line ls [IHle IHeq]]; simpl; [auto |].
  destruct (stream_line json_loads json_dumps line original_model)
    as [[event |] | e] eqn:E.
  - destruct (stream_line_event_inv _ _ _ E) as [-> _].
    destruct (stream_lines json_loads json_dumps ls original_model)
      as [events ended]; simpl in *.
    split; [lia | intros H; now rewrite IHeq].
  - rewrite (stream_line_silent_inv _ _ E). auto.
  - simpl. split; [lia | discriminate].
Qed.


End StreamProps.

Lemma stream_line_drops_other_lines_witness :
  stream_line JsonText.loads JsonText.dumps "data:{}" (VStr "gpt-4") = Ok None.
Proof.
  exact (stream_line_drops_other_lines JsonText.loads JsonText.dumps
           "data:{}" (VStr "gpt-4") eq_refl).
Defined.

Lemma stream_event_count_witness :
  List.length
    (fst (stream_lines JsonText.loads JsonText.dumps
            [sample_chunk_line; ""; "event: ping"; "data: [DONE]"]
            (VStr "gpt-3.5-turbo")))
  = 2%nat.
Proof.
  exact (proj2 (stream_event_count JsonText.loads JsonText.dumps
                  [sample_chunk_line; ""; "event: ping"; "data: [DONE]"]
                  (VStr "gpt-3.5-turbo")) eq_refl).
Defined.


Lemma stream_line_object_witness :
  stream_line JsonText.loads JsonText.dumps sample_chunk_line
    (VStr "gpt-3.5-turbo")
  = Ok (Some sample_chunk_event).
Proof.
  exact (stream_line_object JsonText.loads JsonText.dumps
           (PyStr.drop 6 sample_chunk_line)
           [("id", VStr "c1"); ("model", VStr "internal-x")]
           (VStr "gpt-3.5-turbo")
           ltac:(discriminate) eq_refl).
Defined.


(** ** Model name mapper: the reverse map *)

Section KeysFacts.
Context {V : Type}.
Implicit Types (d : list (string * V)) (k : string) (v : V).

Lemma keys_set k v d :
  Dict.keys (Dict.set k v d)
  = if Dict.mem k d then Dict.keys d else (Dict.keys d ++ [k])%list.
Proof.
  unfold Dict.mem.
  induction d as [|[k0 v0] d IH]; simpl; [reflexivity |].
  destruct (String.eqb k k0) eqn:E; simpl; [reflexivity |].
  rewrite IH. now destruct (Dict.lookup k d).
Qed.

Lemma nodup_set k v d :
  NoDup (Dict.keys d) -> NoDup (Dict.keys (Dict.set k v d)).
Proof.
  intros Hnd. rewrite keys_set.
  destruct (Dict.mem k d) eqn:E; [assumption |].
  apply NoDup_app; [assumption | repeat constructor; simpl; tauto |].
  intros x Hx [Heq | []]. subst x.
  unfold Dict.mem in E. destruct (Dict.lookup k d) eqn:El; [discriminate |].
  now apply lookup_none_keys in El.
Qed.

End KeysFacts.

Section MapperProps.
Variable config : ProxyConfig.
Implicit Types (m acc : list (string * string)) (e k i : string).

Lemma reverse_fold_nodup m acc :
  NoDup (Dict.keys acc) ->
  NoDup (Dict.keys
           (fold_left (fun a kv => Dict.set (snd kv) (fst kv) a) m acc)).
Proof.
  revert acc. induction m as [|[k i] m IH]; simpl; intros acc Hacc; [assumption |].
  apply IH. now apply nodup_set.
Qed.

(** Every internal name of the mapping has a last entry. *)
Lemma last_occurrence m i :
  In i (map snd m) ->
  exists m1 k m2, m = (m1 ++ (k, i) :: m2)%list /\ ~ In i (map snd m2).
Proof.
  induction m as [|[k0 i0] m IH]; simpl; [tauto |].
  intros Hin.
  destruct (in_dec string_dec i (map snd m)) as [Hlater | Hlast].
  - destruct (IH Hlater) as (m1 & k & m2 & -> & Hnot).
    now exists ((k0, i0) :: m1), k, m2.
  - destruct Hin as [-> | Hin]; [| contradiction].
    now exists [], k0, m.
Qed.

(** X13. The reverse map that [map_model_name] builds is a dict in its
    own right: no internal name occurs twice among its keys, whatever the
    mapping. *)
Theorem reverse_map_distinct_keys m : wf_mapping (reverse_map m).
Proof. unfold wf_mapping, reverse_map. apply reverse_fold_nodup. constructor. Qed.

(** X14. For an internal name that the mapping reaches, the reverse
    lookup followed by the forward lookup gives the internal name back:
    the external name shown to clients always maps to the model it
    stands for. *)
Theorem map_model_name_reverse_then_forward i :
  wf_mapping (model_mapping config) ->
  In i (map snd (model_mapping config)) ->
  (external <- map_model_name config (VStr i) true ;;
   map_model_name config external false) = Ok (VStr i).
Proof.
  intros Hwf Hin.
  destruct (last_occurrence _ _ Hin) as (m1 & k & m2 & Hm & Hlast).
  unfold map_model_name, mapping_get. cbn [Py.hashable].
  rewrite Hm at 1. rewrite (reverse_map_last m1 m2 k i Hlast). cbn [bind Py.hashable].
  assert (Hk : Dict.lookup k (model_mapping config) = Some i).
  { apply in_lookup; [assumption |]. rewrite Hm. apply in_or_app. right. now left. }
  now rewrite Hk.
Qed.

(** X15. For an external name of the mapping, the forward lookup followed
    by the reverse lookup gives an external name of the mapping with the
    same internal name, though not always the one it started from. *)
Theorem map_model_name_round_trip_equivalent e i :
  wf_mapping (model_mapping config) ->
  Dict.lookup e (model_mapping config) = Some i ->
  exists k,
    (internal <- map_model_name config (VStr e) false ;;
     map_model_name config internal true) = Ok (VStr k) /\
    Dict.lookup k (model_mapping config) = Some i.
Proof.
  intros Hwf He.
  assert (Hin : In i (map snd (model_mapping config))).
  { apply lookup_in in He. change i with (snd (e, i)). now apply in_map. }
  destruct (last_occurrence _ _ Hin) as (m1 & k & m2 & Hm & Hlast).
  exists k. split.
  - unfold map_model_name, mapping_get. cbn [Py.hashable].
    rewrite He. cbn [bind Py.hashable].
    rewrite Hm. now rewrite (reverse_map_last m1 m2 k i Hlast).
  - apply in_lookup; [assumption |]. rewrite Hm. apply in_or_app. right. now left.
Qed.

End MapperProps.

Lemma sample_mapping_wf : wf_mapping (model_mapping (sample_config false)).
Proof.
  unfold wf_mapping. vm_compute.
  repeat (constructor;
          [intros H; repeat (destruct H as [H | H]; [discriminate H |]);
           exact H |]).
  constructor.
Qed.

Lemma map_model_name_reverse_then_forward_witness :
  (external <- map_model_name (sample_config false)
                 (VStr "llama-3.1-instruct-13b") true ;;
   map_model_name (sample_config false) external false)
  = Ok (VStr "llama-3.1-instruct-13b").
Proof.
  apply (map_model_name_reverse_then_forward (sample_config false)
           "llama-3.1-instruct-13b" sample_mapping_wf).
  simpl. now left.
Defined.

Lemma map_model_name_round_trip_equivalent_witness :
  exists k,
    (internal <- map_model_name (sample_config false) (VStr "gpt-4") false ;;
     map_model_name (sample_config false) internal true) = Ok (VStr k) /\
    Dict.lookup k (model_mapping (sample_config false))
    = Some "llama-3.1-instruct-13b".
Proof.
  exact (map_model_name_round_trip_equivalent (sample_config false)
           "gpt-4" "llama-3.1-instruct-13b" sample_mapping_wf eq_refl).
Defined.

(** ** Request normalizer on a body alone *)

Section RequestProps.
Variable config : ProxyConfig.
Implicit Types (body d : dict).

(** On a body that nothing else refers to, the copy and the write of
    [transform_request_body] amount to one write to the body. *)
Lemma transform_request_dict_write body :
  transform_request_dict config body
  = match Dict.lookup "model" body with
    | Some model =>
        mapped <- map_model_name config model false ;;
        Ok (Dict.set "model" mapped body)
    | None =>
        Ok (body ++ [("model", VStr (default_model config))])%list
    end.
Proof.
  unfold transform_request_dict, transform_request_body.
  cbn [Heap.copy Heap.read List.length app nth].
  destruct (Dict.lookup "model" body) as [model |] eqn:Hmodel.
  - destruct (map_model_name config model false); reflexivity.
  - cbn [bind fst snd]. unfold Heap.setitem. cbn [Heap.read Heap.write nth].
    now rewrite (set_absent _ _ _ Hmodel).
Qed.

Lemma write_end (h : Heap.heap) (d x : dict) :
  Heap.write (List.length h) d (h ++ [x])%list = (h ++ [d])%list.
Proof. induction h as [|y h IH]; simpl; [reflexivity | now rewrite IH]. Qed.

(** X16. What [transform_request_body] does to the heap: it adds one
    object after the objects that are there, and changes none of them. The
    new object is the body with the mapped model written over a present
    [model], or with the default model added at the end; when the lookup
    of the model raises, so does the function. *)
Theorem transform_request_body_allocates (l : Heap.loc) (h : Heap.heap) :
  Heap.valid l h ->
  transform_request_body config l h
  = match Dict.lookup "model" (Heap.read l h) with
    | Some model =>
        mapped <- map_model_name config model false ;;
        Ok (List.length h,
            (h ++ [Dict.set "model" mapped (Heap.read l h)])%list)
    | None =>
        Ok (List.length h,
            (h ++ [(Heap.read l h
                    ++ [("model", VStr (default_model config))])%list])%list)
    end.
Proof.
  intros _. unfold transform_request_body, Heap.copy, Heap.setitem.
  assert (Hnew : Heap.read (List.length h) (h ++ [Heap.read l h])%list
                 = Heap.read l h)
    by (unfold Heap.read at 1; apply nth_middle).
  rewrite Hnew.
  destruct (Dict.lookup "model" (Heap.read l h)) as [model |] eqn:Hmodel.
  - destruct (map_model_name config model false) as [mapped | e];
      cbn [bind]; [| reflexivity].
    now rewrite ?Hnew, write_end.
  - now rewrite ?Hnew, write_end, (set_absent _ _ _ Hmodel).
Qed.

(** X17. The request normalizer fails on exactly the bodies whose
    [model] is a list or a dict, and then with [TypeError]. *)
Theorem transform_request_dict_failure body e :
  transform_request_dict config body = Raise e <->
  e = TypeError /\
  exists model,
    Dict.lookup "model" body = Some model /\ Py.hashable model = false.
Proof.
  rewrite transform_request_dict_write.
  destruct (Dict.lookup "model" body) as [model |].
  - unfold map_model_name, mapping_get.
    destruct (Py.hashable model) eqn:Hhash.
    + split.
      * destruct model; try discriminate.
        destruct (Dict.lookup s (model_mapping config)); discriminate.
      * intros (_ & model' & [= <-] & Hno). congruence.
    + cbn [bind]. split.
      * intros [= <-]. eauto.
      * now intros [-> _].
  - split; [discriminate | intros (_ & model & Hm & _); discriminate].
Qed.

(** X18. The body that the request normalizer returns always has a
    [model], and has the fields of the input in their order, with [model]
    last when the input had none. *)
Theorem transform_request_dict_keys body d :
  transform_request_dict config body = Ok d ->
  Dict.mem "model" d = true /\
  Dict.keys d
  = (if Dict.mem "model" body then Dict.keys body
     else Dict.keys body ++ ["model"])%list.
Proof.
  rewrite transform_request_dict_write. unfold Dict.mem at 2.
  destruct (Dict.lookup "model" body) as [model |] eqn:Hmodel.
  - destruct (map_model_name config model false) as [mapped | e'];
      cbn [bind]; [| discriminate].
    intros [= <-]. split; [apply mem_set_same |].
    rewrite keys_set. unfold Dict.mem. now rewrite Hmodel.
  - intros [= <-]. rewrite <- (set_absent _ (VStr (default_model config)) _ Hmodel).
    split; [apply mem_set_same |].
    rewrite keys_set. unfold Dict.mem. now rewrite Hmodel.
Qed.

End RequestProps.

Lemma transform_request_body_allocates_witness :
  transform_request_body (sample_config false) 0%nat
    [[("messages", VList [])]]
  = Ok (1%nat,
        [[("messages", VList [])];
         [("messages", VList []); ("model", VStr "llama-3.1-instruct-13b")]]).
Proof.
  apply (transform_request_body_allocates (sample_config false) 0%nat
           [[("messages", VList [])]]).
  unfold Heap.valid. simpl. lia.
Defined.

Lemma transform_request_dict_failure_witness :
  transform_request_dict (sample_config false) list_model_body = Raise TypeError.
Proof.
  apply (transform_request_dict_failure (sample_config false)
           list_model_body TypeError).
  split; [reflexivity |]. exists (VList []). split; reflexivity.
Defined.

Lemma transform_request_dict_keys_witness :
  Dict.mem "model" [("messages", VList []); ("model", VStr "llama-3.1-instruct-13b")]
  = true /\
  Dict.keys [("messages", VList []); ("model", VStr "llama-3.1-instruct-13b")]
  = ["messages"; "model"].
Proof.
  exact (transform_request_dict_keys (sample_config false)
           [("messages", VList [])]
           [("messages", VList []); ("model", VStr "llama-3.1-instruct-13b")]
           eq_refl).
Defined.

(** ** Response normalizer: the three back-fills *)

Section BackfillProps.
Implicit Types (body : dict) (original_model : value).

(** X19. The model overwrite and the [object] and [created] back-fills,
    applied to their own result, change nothing, also at a later time. *)
Theorem backfill_fields_idempotent now now' body original_model :
  backfill_fields now' (backfill_fields now body original_model) original_model
  = backfill_fields now body original_model.
Proof. apply backfill_fields_fixed, backfill_fields_settled. Qed.

(** X20. The back-fills never add a [model] field, never replace an
    [object] or a [created] that the backend sent, and leave every other
    field as it is. *)
Theorem backfill_fields_preserves now body original_model :
  let transformed := backfill_fields now body original_model in
  Dict.mem "model" transformed = Dict.mem "model" body /\
  (forall v, Dict.lookup "object" body = Some v ->
             Dict.lookup "object" transformed = Some v) /\
  (forall v, Dict.lookup "created" body = Some v ->
             Dict.lookup "created" transformed = Some v) /\
  (forall k, k <> "model" -> k <> "object" -> k <> "created" ->
             Dict.lookup k transformed = Dict.lookup k body).
Proof.
  cbv zeta. unfold backfill_fields.
  destruct (Dict.mem "model" body) eqn:Hmodel;
    destruct (Dict.mem "object" body) eqn:Hobject;
    destruct (Dict.mem "choices" body) eqn:Hchoices;
    destruct (Dict.mem "created" body) eqn:Hcreated;
    repeat (rewrite ?mem_set_same, ?Hmodel, ?Hobject, ?Hchoices, ?Hcreated;
            rewrite ?mem_set_other by discriminate;
            cbn [negb andb]);
    (split; [rewrite ?mem_set_other by discriminate;
             rewrite ?mem_set_same; congruence |]);
    (split; [intros v Hv; rewrite ?lookup_set_other by discriminate;
             try assumption;
             exfalso; unfold Dict.mem in Hobject; rewrite Hv in Hobject;
             discriminate |]);
    (split; [intros v Hv; rewrite ?lookup_set_other by discriminate;
             try assumption;
             exfalso; unfold Dict.mem in Hcreated; rewrite Hv in Hcreated;
             discriminate |]);
    intros k H1 H2 H3; now rewrite ?lookup_set_other by assumption.
Qed.

End BackfillProps.

Lemma backfill_fields_preserves_witness :
  Dict.lookup "created"
    (backfill_fields 1700000000 basic_test_body (VStr "gpt-3.5-turbo"))
  = Some (VInt 1677652288).
Proof.
  destruct (backfill_fields_preserves 1700000000 basic_test_body
              (VStr "gpt-3.5-turbo")) as (_ & _ & Hcreated & _).
  exact (Hcreated (VInt 1677652288) eq_refl).
Defined.

(** ** Endpoints: statuses, calls and fallbacks *)

Section EndpointProps.
Variable config : ProxyConfig.
Variable http_client : outbound -> transport.
Variable json_loads : string -> option value.
Variable json_dumps : value -> string.

(** The response normalizer raises on whatever [response.json()] gave. *)
Lemma transform_response_value_raises now data original_model :
  exists e, transform_response_value config now data original_model = Raise e.
Proof.
  destruct data; try (eexists; reflexivity).
  unfold transform_response_value.
  repeat match goal with
         | |- context [if ?c then _ else _] => destruct c
         end; eexists; reflexivity.
Qed.

(** A reply that the [try] block of the completion endpoints returns is a
    stream. *)
Lemma completion_try_returns_stream
    now path fallback request authorization calls reply :
  completion_try config http_client json_loads json_dumps
    now path fallback request authorization = (calls, Ok reply) ->
  exists events, reply = StreamingResponse events "text/event-stream".
Proof.
  unfold completion_try.
  destruct (request_json json_loads request) as [body | e]; [| discriminate].
  destruct (Py.get body "model" (VStr fallback)) as [original_model | e];
    [| discriminate].
  destruct (Py.get body "stream" (VBool false)) as [stream | e];
    [| discriminate].
  destruct body; try discriminate.
  destruct (transform_request_dict config d) as [transformed | e];
    [| discriminate].
  destruct (forward_request _ _ _ _ _ _ _) as [calls' forwarded].
  destruct forwarded as [response | e]; cbn [bind]; [| discriminate].
  destruct (Py.truthy stream).
  - intros [= _ <-]. eauto.
  - destruct (status_code response =? 200); [| discriminate].
    destruct (response_json json_loads response) as [data | e]; cbn [bind];
      [| discriminate].
    destruct (transform_response_value_raises now data original_model)
      as [e He].
    rewrite He. discriminate.
Qed.

(** The calls of the [try] block: none before the body is parsed and
    normalized, then the calls of one [forward_request]. *)
Lemma completion_try_calls
    now path fallback request authorization call :
  In call (fst (completion_try config http_client json_loads json_dumps
                  now path fallback request authorization)) ->
  exists fields transformed,
    json_loads (body_text request) = Some (VDict fields) /\
    transform_request_dict config fields = Ok transformed /\
    In call (fst (forward_request config http_client "POST" path
                    (Some transformed)
                    (Some [("authorization", or_empty authorization)])
                    (Py.truthy (Dict.get "stream" (VBool false) fields)))).
Proof.
  unfold completion_try, request_json.
  destruct (json_loads (body_text request)) as [body |]; [| simpl; tauto].
  destruct body; try (simpl; tauto).
  cbn [Py.get].
  destruct (transform_request_dict config d) as [transformed | e] eqn:Ht;
    [| simpl; tauto].
  destruct (forward_request config http_client "POST" path (Some transformed)
              (Some [("authorization", or_empty authorization)])
              (Py.truthy (Dict.get "stream" (VBool false) d)))
    as [calls forwarded] eqn:Hf.
  cbn [fst]. intros Hin.
  exists d, transformed. rewrite Hf. auto.
Qed.

(** [completions] answers 200, 401 or 500 and nothing else: unlike
    [chat_completions] it has no 400. *)
Lemma completions_statuses now request authorization :
  In (reply_status
        (snd (completions config http_client json_loads json_dumps
                now request authorization)))
     [200; 401; 500].
Proof.
  unfold completions.
  destruct (validate_api_key config authorization); simpl; [| tauto].
  destruct (completion_try _ _ _ _ _ _ _ _ _) as [calls outcome] eqn:E.
  destruct outcome as [reply | e]; simpl; [| tauto].
  rewrite (completion_try_returns_200 _ _ _ _ _ _ _ _ _ _ _ E). tauto.
Qed.

(** X28. [embeddings] never succeeds: whatever the request and whatever
    the backend answers, the reply is the 401 or a 500. *)
Theorem embeddings_never_succeeds now request authorization :
  In (reply_status
        (snd (embeddings config http_client json_loads
                now request authorization)))
     [401; 500].
Proof.
  unfold embeddings.
  destruct (validate_api_key config authorization); simpl; [| tauto].
  assert (Hraise : exists e,
             snd (embeddings_try config http_client json_loads
                    now request authorization) = Raise e).
  { unfold embeddings_try.
    destruct (request_json json_loads request) as [body | e]; [| simpl; eauto].
    destruct (Py.get body "model" (VStr "text-embedding-ada-002"))
      as [original_model | e]; [| simpl; eauto].
    destruct body; try (simpl; eauto; fail).
    destruct (transform_request_dict config d) as [transformed | e];
      [| simpl; eauto].
    destruct (forward_request _ _ _ _ _ _ _) as [calls forwarded].
    destruct forwarded as [response | e]; cbn [snd bind]; [| eauto].
    destruct (status_code response =? 200); [| eauto].
    destruct (response_json json_loads response) as [data | e]; cbn [bind];
      [| eauto].
    destruct (transform_response_value_raises now data original_model)
      as [e He].
    rewrite He. cbn [bind]. eauto. }
  destruct (embeddings_try _ _ _ _ _ _) as [calls outcome].
  destruct Hraise as [e He]. simpl in He. subst outcome. simpl. tauto.
Qed.

(** X22. The completion endpoints never return a [JSONResponse]: a reply
    of status 200 is always the event stream. *)
Theorem completion_success_is_stream now request authorization :
  (reply_status
     (snd (chat_completions config http_client json_loads json_dumps
             now request authorization)) = 200 ->
   exists events,
     snd (chat_completions config http_client json_loads json_dumps
            now request authorization)
     = StreamingResponse events "text/event-stream") /\
  (reply_status
     (snd (completions config http_client json_loads json_dumps
             now request authorization)) = 200 ->
   exists events,
     snd (completions config http_client json_loads json_dumps
            now request authorization)
     = StreamingResponse events "text/event-stream").
Proof.
  unfold chat_completions, completions.
  destruct (validate_api_key config authorization); simpl;
    [| split; discriminate].
  split.
  - destruct (completion_try _ _ _ _ _ "/v1/chat/completions" _ _ _)
      as [calls outcome] eqn:E.
    destruct outcome as [reply | e]; simpl.
    + intros _. apply (completion_try_returns_stream _ _ _ _ _ _ _ E).
    + destruct e; simpl; discriminate.
  - destruct (completion_try _ _ _ _ _ "/v1/completions" _ _ _)
      as [calls outcome] eqn:E.
    destruct outcome as [reply | e]; simpl.
    + intros _. apply (completion_try_returns_stream _ _ _ _ _ _ _ E).
    + discriminate.
Qed.


End EndpointProps.

Section EndpointCalls.
Variable config : ProxyConfig.
Variable http_client : outbound -> transport.
Variable json_loads : string -> option value.
Variable json_dumps : value -> string.

(** With the header dict that the endpoints build, a call carries no
    header at all. *)
Lemma forwarded_without_headers method path body authorization stream call :
  In call (fst (forward_request config http_client method path body
                  (Some [("authorization", or_empty authorization)]) stream)) ->
  ob_headers call = [].
Proof.
  intros Hin.
  destruct (forward_request_cases config http_client method path body
              (Some [("authorization", or_empty authorization)]) stream)
    as [H | [H | (primary & call0 & _ & H & _ & _ & Hheaders & _)]];
    cbv zeta in H; rewrite H in Hin; simpl in Hin; try tauto.
  destruct Hin as [<- | []]. exact Hheaders.
Qed.

Lemma embeddings_try_calls now request authorization call :
  In call (fst (embeddings_try config http_client json_loads
                  now request authorization)) ->
  exists transformed,
    In call (fst (forward_request config http_client "POST" "/v1/embeddings"
                    (Some transformed)
                    (Some [("authorization", or_empty authorization)])
                    false)).
Proof.
  unfold embeddings_try.
  destruct (request_json json_loads request) as [body | e]; [| simpl; tauto].
  destruct body; try (simpl; tauto).
  cbn [Py.get].
  destruct (transform_request_dict config d) as [transformed | e];
    [| simpl; tauto].
  destruct (forward_request config http_client "POST" "/v1/embeddings"
              (Some transformed)
              (Some [("authorization", or_empty authorization)]) false)
    as [calls forwarded] eqn:Hf.
  cbn [fst]. intros Hin. exists transformed. now rewrite Hf.
Qed.

(** X26. No endpoint passes a header of the client on to the backend: the
    calls of the four forwarding endpoints carry no header at all, so the
    API key of the client stays in the proxy. *)
Theorem endpoint_calls_carry_no_headers now request authorization call :
  In call (fst (chat_completions config http_client json_loads json_dumps
                  now request authorization)) \/
  In call (fst (completions config http_client json_loads json_dumps
                  now request authorization)) \/
  In call (fst (embeddings config http_client json_loads
                  now request authorization)) \/
  In call (fst (list_models config http_client json_loads
                  now authorization)) ->
  ob_headers call = [].
Proof.
  unfold chat_completions, completions, embeddings, list_models.
  destruct (validate_api_key config authorization); cbn [negb];
    [| simpl; tauto].
  intros [Hin | [Hin | [Hin | Hin]]].
  - destruct (completion_try _ _ _ _ _ "/v1/chat/completions" _ _ _)
      as [calls outcome] eqn:E.
    cbn [fst] in Hin.
    assert (Hin' : In call (fst (completion_try config http_client json_loads
                     json_dumps now "/v1/chat/completions" "gpt-3.5-turbo"
                     request authorization))) by now rewrite E.
    destruct (completion_try_calls config http_client json_loads json_dumps
                _ _ _ _ _ _ Hin') as (fields & transformed & _ & _ & Hcall).
    now apply forwarded_without_headers in Hcall.
  - destruct (completion_try _ _ _ _ _ "/v1/completions" _ _ _)
      as [calls outcome] eqn:E.
    cbn [fst] in Hin.
    assert (Hin' : In call (fst (completion_try config http_client json_loads
                     json_dumps now "/v1/completions" "text-davinci-003"
                     request authorization))) by now rewrite E.
    destruct (completion_try_calls config http_client json_loads json_dumps
                _ _ _ _ _ _ Hin') as (fields & transformed & _ & _ & Hcall).
    now apply forwarded_without_headers in Hcall.
  - destruct (embeddings_try _ _ _ _ _ _) as [calls outcome] eqn:E.
    cbn [fst] in Hin.
    assert (Hin' : In call (fst (embeddings_try config http_client json_loads
                     now request authorization))) by now rewrite E.
    destruct (embeddings_try_calls _ _ _ _ Hin') as (transformed & Hcall).
    now apply forwarded_without_headers in Hcall.
  - destruct (forward_request config http_client "GET" "/v1/models" None
                (Some [("authorization", or_empty authorization)]) false)
      as [calls forwarded] eqn:E.
    cbn [fst] in Hin.
    apply (forwarded_without_headers "GET" "/v1/models" None authorization false).
    now rewrite E.
Qed.

(** X27. The one call that [chat_completions] makes is a POST of the
    normalized body of the request, made only after authentication, and
    sent without a timeout exactly when the body asks for a stream. *)
Theorem chat_completions_call now request authorization call :
  In call (fst (chat_completions config http_client json_loads json_dumps
                  now request authorization)) ->
  validate_api_key config authorization = true /\
  ob_method call = "POST" /\
  exists fields transformed,
    json_loads (body_text request) = Some (VDict fields) /\
    transform_request_dict config fields = Ok transformed /\
    ob_json call = Some transformed /\
    ob_no_timeout call = Py.truthy (Dict.get "stream" (VBool false) fields).
Proof.
  unfold chat_completions.
  destruct (validate_api_key config authorization); cbn [negb];
    [| simpl; tauto].
  destruct (completion_try _ _ _ _ _ "/v1/chat/completions" _ _ _)
    as [calls outcome] eqn:E.
  cbn [fst]. intros Hin.
  assert (Hin' : In call (fst (completion_try config http_client json_loads
                   json_dumps now "/v1/chat/completions" "gpt-3.5-turbo"
                   request authorization))) by now rewrite E.
  destruct (completion_try_calls config http_client json_loads json_dumps
              _ _ _ _ _ _ Hin') as (fields & transformed & Hb & Ht & Hcall).
  destruct (forward_request_cases config http_client "POST"
              "/v1/chat/completions" (Some transformed)
              (Some [("authorization", or_empty authorization)])
              (Py.truthy (Dict.get "stream" (VBool false) fields)))
    as [H | [H | (primary & call0 & _ & H & Hmethod & _ & _ & Hjson & Htimeout)]];
    cbv zeta in H; rewrite H in Hcall; simpl in Hcall; try tauto.
  destruct Hcall as [<- | []].
  split; [reflexivity |]. split; [assumption |].
  exists fields, transformed. auto.
Qed.

(** X24. Without [stream], a backend status other than 200 reaches the
    client of the completion endpoints as a 500: the exception that
    carries the status and the text of the backend is caught by the
    handler of the endpoint and only its [str] survives, in the detail. *)
Theorem backend_status_answered_500
    now request authorization fields transformed :
  validate_api_key config authorization = true ->
  json_loads (body_text request) = Some (VDict fields) ->
  Py.truthy (Dict.get "stream" (VBool false) fields) = false ->
  transform_request_dict config fields = Ok transformed ->
  (forall calls response,
      forward_request config http_client "POST" "/v1/chat/completions"
        (Some transformed) (Some [("authorization", or_empty authorization)])
        false = (calls, Ok response) ->
      status_code response <> 200 ->
      chat_completions config http_client json_loads json_dumps
        now request authorization
      = (calls,
         HTTPError 500
           (StrOf (HTTPException (status_code response) (text response))))) /\
  (forall calls response,
      forward_request config http_client "POST" "/v1/completions"
        (Some transformed) (Some [("authorization", or_empty authorization)])
        false = (calls, Ok response) ->
      status_code response <> 200 ->
      completions config http_client json_loads json_dumps
        now request authorization
      = (calls,
         HTTPError 500
           (StrOf (HTTPException (status_code response) (text response))))).
Proof.
  intros Hauth Hbody Hstream Htransform.
  split; intros calls response Hforward Hstatus;
    unfold chat_completions, completions; rewrite Hauth; cbn [negb];
    rewrite (nonstreaming_raises_backend_status config http_client json_loads
               json_dumps now _ _ request authorization fields transformed
               calls response Hbody Hstream Htransform Hforward Hstatus);
    reflexivity.
Qed.


End EndpointCalls.

(** ** Model listing *)

Section ListingProps.
Variable config : ProxyConfig.
Variable http_client : outbound -> transport.
Variable json_loads : string -> option value.

Lemma rename_model_named model :
  named_model model ->
  rename_model config model = Ok (with_external_id config model).
Proof.
  intros (fields & -> & Hid).
  unfold rename_model, with_external_id. cbn [Py.contains bind].
  unfold Dict.mem.
  destruct (Dict.lookup "id" fields) as [v |] eqn:Hv; [| reflexivity].
  destruct (Hid v eq_refl) as [internal ->].
  cbn [Py.getitem]. rewrite Hv. cbn [bind].
  unfold map_model_name, mapping_get, Dict.get. cbn [Py.hashable].
  now destruct (Dict.lookup internal (reverse_map (model_mapping config))).
Qed.

Lemma rename_models_named models :
  Forall named_model models ->
  rename_models config models = Ok (map (with_external_id config) models).
Proof.
  induction 1 as [|model models Hmodel _ IH]; simpl; [reflexivity |].
  now rewrite (rename_model_named _ Hmodel), IH.
Qed.

(** X29. [list_models] answers a rejected key with the 401 and no call,
    and never fails otherwise: when the forwarding raises, when the backend
    answers with a status other than 200, and when its answer is not JSON,
    the endpoint returns its one-model fallback list. *)
Theorem list_models_falls_back now authorization :
  (validate_api_key config authorization = false ->
   list_models config http_client json_loads now authorization
   = ([], Raise (HTTPException 401 "Invalid API key"))) /\
  (validate_api_key config authorization = true ->
   forall calls forwarded,
     forward_request config http_client "GET" "/v1/models" None
       (Some [("authorization", or_empty authorization)]) false
     = (calls, forwarded) ->
     (forall response,
         forwarded = Ok response ->
         status_code response <> 200 \/ json_loads (text response) = None) ->
     list_models config http_client json_loads now authorization
     = (calls, Ok (fallback_models now))) /\
  (validate_api_key config authorization = true ->
   exists data,
     snd (list_models config http_client json_loads now authorization)
     = Ok data).
Proof.
  unfold list_models. split; [| split].
  - now intros ->.
  - intros -> calls forwarded -> Hbad. cbn [negb].
    destruct forwarded as [response | e]; cbn [bind]; [| reflexivity].
    destruct (Hbad response eq_refl) as [Hstatus | Htext].
    + apply Z.eqb_neq in Hstatus. now rewrite Hstatus.
    + unfold response_json. rewrite Htext.
      now destruct (status_code response =? 200).
  - intros ->. cbn [negb].
    destruct (forward_request _ _ _ _ _ _ _) as [calls forwarded].
    cbn [snd].
    match goal with
    | |- exists data, match ?c with _ => _ end = _ => destruct c; eauto
    end.
Qed.

(** X30. When the backend answers 200 with an object whose [data] is a
    list of models, objects whose [id] is a string, [list_models] returns
    that object with every [id] replaced by the external name the reverse
    map gives for it, and with an [id] the map does not know unchanged. *)
Theorem list_models_maps_ids now authorization calls response listing models :
  validate_api_key config authorization = true ->
  forward_request config http_client "GET" "/v1/models" None
    (Some [("authorization", or_empty authorization)]) false
  = (calls, Ok response) ->
  status_code response = 200 ->
  json_loads (text response) = Some (VDict listing) ->
  Dict.lookup "data" listing = Some (VList models) ->
  Forall named_model models ->
  list_models config http_client json_loads now authorization
  = (calls,
     Ok (VDict (Dict.set "data"
                  (VList (map (with_external_id config) models)) listing))).
Proof.
  intros Hauth Hforward Hstatus Htext Hdata Hnamed.
  unfold list_models, response_json, rename_listing.
  rewrite Hauth, Hforward. cbn [negb bind].
  rewrite Hstatus, Htext. cbn [Z.eqb Pos.eqb bind Py.contains].
  unfold Dict.mem. rewrite Hdata. cbn [bind Py.getitem]. rewrite Hdata.
  cbn [bind]. now rewrite (rename_models_named _ Hnamed).
Qed.

End ListingProps.

Lemma list_models_falls_back_witness :
  list_models (sample_config true) refusing JsonText.loads 1700000000
    (Some "Bearer abc")
  = ([{| ob_method := "GET";
         ob_url := "http://10.50.10.14:1234/v1/models";
         ob_json := None;
         ob_headers := [];
         ob_no_timeout := false |}],
     Ok (fallback_models 1700000000)).
Proof.
  destruct (list_models_falls_back (sample_config true) refusing
              JsonText.loads 1700000000 (Some "Bearer abc"))
    as (_ & Hfallback & _).
  apply (Hfallback eq_refl _ _ eq_refl).
  intros response H. discriminate H.
Defined.

Lemma list_models_maps_ids_witness :
  snd (list_models (sample_config false) (answering sample_listing_response)
         JsonText.loads 0 None)
  = Ok (VDict [("object", VStr "list");
               ("data",
                VList [VDict [("id", VStr "gpt-4-turbo");
                              ("object", VStr "model")];
                       VDict [("id", VStr "mistral-7b")]])]).
Proof.
  assert (Hnamed : Forall named_model
            [VDict [("id", VStr "llama-3.1-instruct-13b");
                    ("object", VStr "model")];
             VDict [("id", VStr "mistral-7b")]]).
  { repeat constructor; eexists; (split; [reflexivity |]);
      simpl; intros v [= <-]; eauto. }
  rewrite (list_models_maps_ids (sample_config false)
             (answering sample_listing_response) JsonText.loads 0 None
             _ sample_listing_response _ _
             eq_refl eq_refl eq_refl eq_refl eq_refl Hnamed).
  reflexivity.
Defined.

Lemma completion_success_is_stream_witness :
  exists events,
    snd (chat_completions (sample_config true) (answering sample_error_response)
           JsonText.loads JsonText.dumps 0 (sample_request true)
           (Some "Bearer abc"))
    = StreamingResponse events "text/event-stream".
Proof.
  exact (proj1 (completion_success_is_stream (sample_config true)
                  (answering sample_error_response)
                  JsonText.loads JsonText.dumps 0 (sample_request true)
                  (Some "Bearer abc")) eq_refl).
Defined.


Lemma endpoint_calls_carry_no_headers_witness :
  ob_headers
    {| ob_method := "POST";
       ob_url := "http://10.50.10.14:1234/v1/chat/completions";
       ob_json := Some [("model", VStr "llama-3.1-instruct-13b");
                        ("messages", VList []);
                        ("stream", VBool true)];
       ob_headers := [];
       ob_no_timeout := true |}
  = [].
Proof.
  apply (endpoint_calls_carry_no_headers (sample_config true)
           (answering sample_error_response) JsonText.loads JsonText.dumps
           0 (sample_request true) (Some "Bearer abc")).
  left. vm_compute. now left.
Defined.

Lemma chat_completions_call_witness :
  validate_api_key (sample_config true) (Some "Bearer abc") = true /\
  ob_method
    {| ob_method := "POST";
       ob_url := "http://10.50.10.14:1234/v1/chat/completions";
       ob_json := Some [("model", VStr "llama-3.1-instruct-13b");
                        ("messages", VList []);
                        ("stream", VBool true)];
       ob_headers := [];
       ob_no_timeout := true |} = "POST".
Proof.
  destruct (chat_completions_call (sample_config true)
              (answering sample_error_response) JsonText.loads JsonText.dumps
              0 (sample_request true) (Some "Bearer abc")
              {| ob_method := "POST";
                 ob_url := "http://10.50.10.14:1234/v1/chat/completions";
                 ob_json := Some [("model", VStr "llama-3.1-instruct-13b");
                                  ("messages", VList []);
                                  ("stream", VBool true)];
                 ob_headers := [];
                 ob_no_timeout := true |})
    as (Hauth & Hmethod & _).
  - vm_compute. now left.
  - split; assumption.
Defined.

Lemma backend_status_answered_500_witness :
  snd (chat_completions (sample_config false) (answering sample_error_response)
         JsonText.loads JsonText.dumps 0 (sample_request false) None)
  = HTTPError 500 (StrOf (HTTPException 500 "Internal Server Error")).
Proof.
  destruct (backend_status_answered_500 (sample_config false)
              (answering sample_error_response) JsonText.loads JsonText.dumps
              0 (sample_request false) None
              [("model", VStr "gpt-3.5-turbo"); ("messages", VList [])]
              [("model", VStr "llama-3.1-instruct-13b"); ("messages", VList [])]
              eq_refl eq_refl eq_refl eq_refl)
    as [Hchat _].
  rewrite (Hchat _ sample_error_response eq_refl ltac:(discriminate)).
  reflexivity.
Defined.

